(** * Shallow embedding of the data-marketplace deployment scripts

    [scripts/deploy.py] pushes three precompiled contracts to a local
    node through the web3 client; [visualise.py] adds two routes, a page
    and a static directory, to a web application.  Both are orchestration over libraries, so the embedding
    keeps the control flow of the scripts (sequencing, [try]/[except],
    [exit]) exactly and treats the node, the web3 client and the pure
    library helpers as an environment the theorems quantify over. *)

From Stdlib Require Import ZArith List Lia Ascii String Permutation.
From stdpp Require Import base strings gmap list.
Import ListNotations.

Local Open Scope string_scope.
Local Open Scope Z_scope.
Local Open Scope list_scope.

Set Warnings "-register-all".

(* ===================================================================== *)
(** * Python values, exceptions and the data model of the scripts        *)
(* ===================================================================== *)

(** The Python values the scripts pass around: [None], booleans, integers
    (unbounded, hence [Z]), strings, tuples/lists and string-keyed dicts
    (insertion ordered, hence an association list). *)
Inductive value :=
| VNone
| VBool (b : bool)
| VInt (z : Z)
| VStr (s : string)
| VTuple (l : list value)
| VDict (d : list (string * value)).

(** Python truthiness, as used by [if x:] and [x and y]. *)
Definition truthy (v : value) : bool :=
  match v with
  | VNone => false
  | VBool b => b
  | VInt z => negb (z =? 0)
  | VStr s => negb (String.eqb s "")
  | VTuple l => match l with [] => false | _ => true end
  | VDict d => match d with [] => false | _ => true end
  end.

(** Exception classes the handlers of [deploy.py] tell apart, and the one
    raised by a read of bytes that are not text; every class listed here
    is a subclass of [Exception]. *)
Inductive exn_class :=
| FileNotFoundError
| JSONDecodeError
| IndexError
| UnicodeDecodeError
| OtherException.

Record exn := Exn { exn_class_of : exn_class; exn_msg : string }.

(** What a library call gives back: a result or a raised exception. *)
Inductive reply (X : Type) :=
| Ok (x : X)
| Raise (e : exn).
Arguments Ok {X} x.
Arguments Raise {X} e.

(** A transaction is the dict returned by [build_transaction]. *)
Abbreviation tx := (gmap string value).

(** Deployment Receipt: the three attributes the script reads. *)
Record receipt := Receipt {
  status : Z;
  contractAddress : value;
  blockNumber : Z
}.

(** The reply of [debug_traceTransaction], restricted to the keys the
    script inspects: [returnValue], a string when present, and [error],
    an object whose [message], when present, is a string.
    [returnValue = None] means the key is absent; [error = Some None] an
    error object without a [message] key. *)
Record trace := Trace {
  returnValue : option string;
  error : option (option string)
}.

(** Deployed Contract Handle, [w3.eth.contract(address=..., abi=...)]. *)
Record handle := Handle {
  address : value;
  abi_of : value
}.

(** Requests to the web3 client and, through it, to the node; the index
    is the type of a successful reply.  [label] is the [contract_name]
    argument of the enclosing [deploy_contract] call: it tells the three
    deployments apart in the trace and is not sent to the node.
    [eth_contract] is [w3.eth.contract(abi=..., bytecode=...)] and
    [eth_contract_at] is [w3.eth.contract(address=..., abi=...)]: the
    client checks its arguments and may raise; what it hands back is
    determined by the arguments, so the reply carries no data.
    [build_transaction] is [Contract.constructor(args).build_transaction]
    and [contract_call h fn args] is [h.functions.fn(args).call()]. *)
Inductive rpc : Type -> Type :=
| eth_accounts : rpc (list string)
| is_connected : rpc bool
| client_version : rpc string
| eth_block_number : rpc Z
| eth_chain_id : rpc Z
| eth_contract (label : string) (abi : value) (bytecode : string) : rpc unit
| build_transaction (label : string) (abi : value) (bytecode : string)
    (args : list value) (from : value) : rpc tx
| eth_estimate_gas (label : string) (t : tx) : rpc Z
| eth_send_transaction (label : string) (t : tx) : rpc string
| eth_wait_for_transaction_receipt (label : string) (tx_hash : string) : rpc receipt
| debug_traceTransaction (label : string) (tx_hash : string) : rpc trace
| eth_contract_at (label : string) (addr : value) (abi : value) : rpc unit
| contract_call (h : handle) (fn : string) (args : list value) : rpc value.

(** An interpolated value of an f-string. *)
Inductive shown :=
| Sh (v : value)
| ShReceipt (r : receipt)
| ShExn (e : exn).

(** A file of the working directory: text; bytes that are not text in
    the encoding [open] uses (the file opens, reading it raises); or
    present but not openable (permissions, a directory, ...). *)
Inductive fentry :=
| FText (content : string)
| FUndecodable
| FDenied.

(** The file is there and its text cannot be had. *)
Definition unreadable (e : fentry) : bool :=
  match e with
  | FText _ => false
  | FUndecodable | FDenied => true
  end.

(** Observable events of a run, newest first in the log. *)
Inductive event :=
| Print (fmt : string) (args : list shown)
| Rpc {X : Type} (c : rpc X) (r : reply X)
| Open (path mode : string)
| Sleep (secs : Z)
| Traceback (e : exn).

(** How a Python computation ends: a value, an exception on its way up,
    or [SystemExit] (which [except Exception] does not catch). *)
Inductive outcome (A : Type) :=
| Return (a : A)
| Raised (e : exn)
| SysExit (code : option Z).
Arguments Return {A} a.
Arguments Raised {A} e.
Arguments SysExit {A} code.

(** Exit status of the interpreter: 0 on normal end and on [exit()]
    ([SystemExit(None)]), the code of [exit(n)], 1 on an uncaught
    exception. *)
Definition exit_status {A} (o : outcome A) : Z :=
  match o with
  | Return _ => 0
  | Raised _ => 1
  | SysExit None => 0
  | SysExit (Some n) => n
  end.

(* ===================================================================== *)
(** * The environment and the state monad of the script                  *)
(* ===================================================================== *)

(** The node with the web3 client in front of it ([respond], which moves
    the node to its next state), and the pure library functions the
    script calls: [json.load], [json.dump(..., indent=4)], [w3.from_wei],
    [bytes.fromhex], [bytes.decode('utf-8', errors='ignore')] and
    [str.strip()].  [json_loads] gives [None] for a [JSONDecodeError]. *)
Record Env (Node : Type) := {
  respond : forall X, rpc X -> Node -> reply X * Node;
  json_loads : string -> option value;
  json_dumps : value -> string;
  from_wei : value -> string -> reply value;
  bytes_fromhex : string -> reply (list Byte.byte);
  utf8_decode_ignore : list Byte.byte -> string;
  str_strip : string -> string
}.
Arguments respond {Node} _ {X} _ _.
Arguments json_loads {Node} _ _.
Arguments json_dumps {Node} _ _.
Arguments from_wei {Node} _ _ _.
Arguments bytes_fromhex {Node} _ _.
Arguments utf8_decode_ignore {Node} _ _.
Arguments str_strip {Node} _ _.

Record state (Node : Type) := State {
  node : Node;
  fs : gmap string fentry;
  default_account : value;
  log : list event
}.
Arguments State {Node} _ _ _ _.
Arguments node {Node} _.
Arguments fs {Node} _.
Arguments default_account {Node} _.
Arguments log {Node} _.

Definition M (Node A : Type) : Type := state Node -> outcome A * state Node.

Section Script.
Context {Node : Type} (env : Env Node).

Definition ret {A} (a : A) : M Node A := fun s => (Return a, s).

Definition bind {A B} (m : M Node A) (k : A -> M Node B) : M Node B :=
  fun s =>
    match m s with
    | (Return a, s') => k a s'
    | (Raised e, s') => (Raised e, s')
    | (SysExit c, s') => (SysExit c, s')
    end.

Definition raise {A} (e : exn) : M Node A := fun s => (Raised e, s).

(** [exit()] and [exit(n)]. *)
Definition exit {A} (code : option Z) : M Node A := fun s => (SysExit code, s).

(** [try: m  except ...: h]; [h e = None] when no clause matches [e]. *)
Definition try_except {A} (m : M Node A) (h : exn -> option (M Node A)) : M Node A :=
  fun s =>
    match m s with
    | (Raised e, s') =>
        match h e with
        | Some k => k s'
        | None => (Raised e, s')
        end
    | r => r
    end.

Definition emit (ev : event) : M Node unit :=
  fun s => (Return tt, State (node s) (fs s) (default_account s) (ev :: log s)).

Definition print (fmt : string) (args : list shown) : M Node unit :=
  emit (Print fmt args).

Definition sleep (secs : Z) : M Node unit := emit (Sleep secs).

Definition of_reply {A} (r : reply A) : M Node A :=
  match r with
  | Ok x => ret x
  | Raise e => raise e
  end.

(** One request to the client: the node moves on, the exchange is logged. *)
Definition call {X} (c : rpc X) : M Node X :=
  fun s =>
    let '(r, n') := respond env c (node s) in
    of_reply r (State n' (fs s) (default_account s) (Rpc c r :: log s)).

Definition get_default_account : M Node value :=
  fun s => (Return (default_account s), s).

Definition set_default_account (a : value) : M Node unit :=
  fun s => (Return tt, State (node s) (fs s) a (log s)).

(** [with open(path, 'r') as f: f.read()]: [open] raises for a file that
    is missing or cannot be opened; the read raises for one that opened
    and does not hold text. *)
Definition open_read (path : string) : M Node string :=
  fun s =>
    let s' := State (node s) (fs s) (default_account s) (Open path "r" :: log s) in
    match fs s !! path with
    | None => (Raised (Exn FileNotFoundError path), s')
    | Some FDenied => (Raised (Exn OtherException path), s')
    | Some FUndecodable => (Raised (Exn UnicodeDecodeError "invalid start byte"), s')
    | Some (FText content) => (Return content, s')
    end.

(** [with open(path, 'w') as f: f.write(content)]: mode ['w'] creates the
    file or truncates it. *)
Definition open_write (path content : string) : M Node unit :=
  fun s =>
    let l := Open path "w" :: log s in
    match fs s !! path with
    | Some FDenied =>
        (Raised (Exn OtherException path), State (node s) (fs s) (default_account s) l)
    | _ =>
        (Return tt, State (node s) (<[path := FText content]> (fs s)) (default_account s) l)
    end.

End Script.

Declare Scope py_scope.
Delimit Scope py_scope with py.
Notation "x <- m ;; k" := (bind m (fun x => k))
  (at level 20, m at level 99, k at level 200, only parsing) : py_scope.
Notation "' pat <- m ;; k" := (bind m (fun x => match x with pat => k end))
  (at level 20, pat pattern, m at level 99, k at level 200, only parsing) : py_scope.
Notation "m ;; k" := (bind m (fun _ => k))
  (at level 100, k at level 200, only parsing, right associativity) : py_scope.
Local Open Scope py_scope.

(* ===================================================================== *)
(** * String helpers of the revert-reason decoder                        *)
(* ===================================================================== *)

(** [s[n:]] *)
Fixpoint str_drop (n : nat) (s : string) : string :=
  match n, s with
  | O, _ => s
  | S n', String _ r => str_drop n' r
  | S _, EmptyString => EmptyString
  end.

Definition is_nul (c : ascii) : bool := Ascii.eqb c Ascii.zero.

Fixpoint lstrip_nul (s : string) : string :=
  match s with
  | String c r => if is_nul c then lstrip_nul r else s
  | EmptyString => EmptyString
  end.

Fixpoint rstrip_nul (s : string) : string :=
  match s with
  | EmptyString => EmptyString
  | String c r =>
      match rstrip_nul r with
      | EmptyString => if is_nul c then EmptyString else String c EmptyString
      | r' => String c r'
      end
  end.

(** [s.strip('\x00')] *)
Definition strip_nul (s : string) : string := rstrip_nul (lstrip_nul s).

(** Selector of [Error(string)], as [deploy.py] spells it. *)
Definition error_selector : string := "0x08c379a0".

(* ===================================================================== *)
(** * scripts/deploy.py                                                  *)
(* ===================================================================== *)

Section Deploy.
Context {Node : Type} (env : Env Node).

(** Lines 7-18: the module-level connection set-up. *)
Definition module_init : M Node unit :=
  accounts <- call env eth_accounts ;;
  first <- match accounts with
           | a :: _ => ret (VStr a)
           | [] => raise (Exn IndexError "list index out of range")
           end ;;
  set_default_account first ;;
  print "Connecting to Ganache at http://127.0.0.1:8545..." [] ;;
  connected <- call env is_connected ;;
  (if negb connected
   then print "Error: Not connected to Ganache. Please ensure ganache-cli is running." [] ;;
        exit None
   else ret tt) ;;
  version <- call env client_version ;;
  print "Successfully connected to Ganache. Client version: {w3.client_version}"
        [Sh (VStr version)] ;;
  account <- get_default_account ;;
  print "Using deployer account: {w3.eth.default_account}" [Sh account] ;;
  number <- call env eth_block_number ;;
  print "Current block number: {w3.eth.block_number}" [Sh (VInt number)] ;;
  chain <- call env eth_chain_id ;;
  print "Chain ID: {w3.eth.chain_id}" [Sh (VInt chain)].

Definition abi_path_of (contract_name : string) : string :=
  "build/" +:+ contract_name +:+ ".json".

Definition bytecode_path_of (contract_name : string) : string :=
  "build/" +:+ contract_name +:+ ".bin".

(** [json.load(f)] on the text of the file. *)
Definition json_load (text : string) : M Node value :=
  match json_loads env text with
  | Some v => ret v
  | None => raise (Exn JSONDecodeError "Expecting value")
  end.

(** Lines 21-53. *)
Definition load_contract_artifact (contract_name : string) : M Node (value * string) :=
  let abi_path := abi_path_of contract_name in
  let bytecode_path := bytecode_path_of contract_name in
  print "\n--- Loading Artifacts for {contract_name} ---" [Sh (VStr contract_name)] ;;
  print "Attempting to load ABI from: {abi_path}" [Sh (VStr abi_path)] ;;
  abi <- try_except
           (text <- open_read abi_path ;;
            abi <- json_load text ;;
            print "SUCCESS: Loaded ABI for {contract_name}." [Sh (VStr contract_name)] ;;
            ret abi)
           (fun e =>
              match exn_class_of e with
              | FileNotFoundError => Some (
                  print "ERROR: ABI file '{abi_path}' not found in build/ directory."
                        [Sh (VStr abi_path)] ;;
                  print "Please ensure you have compiled your Solidity contracts and renamed the .abi files to .json." [] ;;
                  exit None)
              | JSONDecodeError => Some (
                  print "ERROR: Could not parse JSON from '{abi_path}'. Is it a valid JSON file?"
                        [Sh (VStr abi_path)] ;;
                  exit None)
              | _ => None
              end) ;;
  print "Attempting to load Bytecode from: {bytecode_path}" [Sh (VStr bytecode_path)] ;;
  bytecode <- try_except
           (text <- open_read bytecode_path ;;
            let bytecode := str_strip env text in
            print "SUCCESS: Loaded bytecode for {contract_name}." [Sh (VStr contract_name)] ;;
            ret bytecode)
           (fun e =>
              match exn_class_of e with
              | FileNotFoundError => Some (
                  print "ERROR: Bytecode file '{bytecode_path}' not found in build/ directory."
                        [Sh (VStr bytecode_path)] ;;
                  print "Please ensure you have compiled your Solidity contracts and the .bin files are present and correctly named." [] ;;
                  exit None)
              | _ => None
              end) ;;
  print "--- Finished Loading Artifacts for {contract_name} ---\n" [Sh (VStr contract_name)] ;;
  ret (abi, bytecode).

(** ['returnValue' in trace and trace['returnValue']]: the payload, when
    the key is there and the string is not empty. *)
Definition payload_of (t : trace) : option string :=
  match returnValue t with
  | Some revert_data => if truthy (VStr revert_data) then Some revert_data else None
  | None => None
  end.

(** ['error' in trace and 'message' in trace['error']] *)
Definition message_of (t : trace) : option string :=
  match error t with
  | Some (Some message) => Some message
  | _ => None
  end.

(** Lines 80-88: what is printed about a trace that was obtained. *)
Definition report_trace (t : trace) : M Node unit :=
  match payload_of t with
  | Some revert_data =>
      if String.prefix error_selector revert_data then
        raw <- of_reply (bytes_fromhex env (str_drop 10 revert_data)) ;;
        let revert_reason := strip_nul (utf8_decode_ignore env raw) in
        print "Ganache Revert Reason: {revert_reason}" [Sh (VStr revert_reason)]
      else
        print "Ganache Raw Revert Data: {revert_data}" [Sh (VStr revert_data)]
  | None =>
      match message_of t with
      | Some message =>
          print "Ganache Error Message: {trace['error']['message']}" [Sh (VStr message)]
      | None => ret tt
      end
  end.

(** Lines 74-91: the branch taken on a receipt with [status == 0]. *)
Definition on_revert (contract_name tx_hash : string) (tx_receipt : receipt) : M Node unit :=
  print "!!! ERROR: Contract deployment transaction reverted. Hash: {tx_hash.hex()}"
        [Sh (VStr tx_hash)] ;;
  print "Transaction receipt: {tx_receipt}" [ShReceipt tx_receipt] ;;
  try_except
    (t <- call env (debug_traceTransaction contract_name tx_hash) ;;
     report_trace t)
    (fun trace_e => Some (
       print "Could not trace transaction for revert reason: {trace_e}" [ShExn trace_e])) ;;
  raise (Exn OtherException "Contract deployment failed due to revert.").

(** Lines 55-98. *)
Definition deploy_contract (contract_name : string) (abi : value) (bytecode : string)
    (args : list value) : M Node handle :=
  call env (eth_contract contract_name abi bytecode) ;;
  print "Attempting to deploy contract '{contract_name}' with constructor args: {args}"
        [Sh (VStr contract_name); Sh (VTuple args)] ;;
  try_except
    (sender <- get_default_account ;;
     tx_build <- call env (build_transaction contract_name abi bytecode args sender) ;;
     estimated_gas <- call env (eth_estimate_gas contract_name tx_build) ;;
     let tx_build := <["gas" := VInt (estimated_gas + 100000)]> tx_build in
     print "Estimated gas for deployment: {estimated_gas}. Using {tx_build['gas']} gas."
           [Sh (VInt estimated_gas); Sh (VInt (estimated_gas + 100000))] ;;
     tx_hash <- call env (eth_send_transaction contract_name tx_build) ;;
     print "Deployment transaction sent. Hash: {tx_hash.hex()}" [Sh (VStr tx_hash)] ;;
     print "Waiting for transaction to be mined..." [] ;;
     tx_receipt <- call env (eth_wait_for_transaction_receipt contract_name tx_hash) ;;
     (if status tx_receipt =? 0
      then on_revert contract_name tx_hash tx_receipt
      else ret tt) ;;
     let contract_address := contractAddress tx_receipt in
     print "SUCCESS: Contract deployed at: {contract_address} (Block: {tx_receipt.blockNumber})"
           [Sh contract_address; Sh (VInt (blockNumber tx_receipt))] ;;
     call env (eth_contract_at contract_name contract_address abi) ;;
     ret (Handle contract_address abi))
    (fun e => Some (
       print "FATAL ERROR: Failed to deploy contract. Details: {e}" [ShExn e] ;;
       exit (Some 1))).

(** [w3.from_wei(h.functions.fn(args...).call(), 'ether')] *)
Definition call_in_ether (h : handle) (fn : string) (args : list value) : M Node value :=
  wei <- call env (contract_call h fn args) ;;
  of_reply (from_wei env wei "ether").

Definition initial_supply : Z := 1000000 * 10 ^ 18.

Definition registry_path : string := "contract_addresses.json".

(** Lines 100-148. *)
Definition main : M Node unit :=
  print "\n--- Starting Full Contract Deployment Process ---" [] ;;
  (* 1. Deploy MyToken (ERC-20) *)
  print "\n[STEP 1/3] Deploying MyToken (ERC-20) contract..." [] ;;
  '(token_abi, token_bytecode) <- load_contract_artifact "MyToken" ;;
  token_contract <- deploy_contract "MyToken" token_abi token_bytecode [VInt initial_supply] ;;
  print "MyToken deployed successfully at: {token_contract.address}"
        [Sh (address token_contract)] ;;
  supply <- call_in_ether token_contract "totalSupply" [] ;;
  print "MyToken total supply: {w3.from_wei(token_contract.functions.totalSupply().call(), 'ether')} MTK" [Sh supply] ;;
  account <- get_default_account ;;
  balance <- call_in_ether token_contract "balanceOf" [account] ;;
  print "Deployer's MTK balance: {w3.from_wei(token_contract.functions.balanceOf(w3.eth.default_account).call(), 'ether')} MTK" [Sh balance] ;;
  sleep 1 ;;
  (* 2. Deploy DataReview *)
  print "\n[STEP 2/3] Deploying DataReview contract..." [] ;;
  '(data_review_abi, data_review_bytecode) <- load_contract_artifact "DataReview" ;;
  account <- get_default_account ;;
  data_review_contract <-
    deploy_contract "DataReview" data_review_abi data_review_bytecode
                    [address token_contract; account] ;;
  print "DataReview deployed successfully at: {data_review_contract.address}"
        [Sh (address data_review_contract)] ;;
  owner <- call env (contract_call data_review_contract "owner" []) ;;
  print "DataReview owner: {data_review_contract.functions.owner().call()}" [Sh owner] ;;
  sleep 1 ;;
  (* 3. Deploy DataBundle *)
  print "\n[STEP 3/3] Deploying DataBundle contract..." [] ;;
  '(data_bundle_abi, data_bundle_bytecode) <- load_contract_artifact "DataBundle" ;;
  account <- get_default_account ;;
  data_bundle_contract <-
    deploy_contract "DataBundle" data_bundle_abi data_bundle_bytecode
                    [address token_contract; account] ;;
  print "DataBundle deployed successfully at: {data_bundle_contract.address}"
        [Sh (address data_bundle_contract)] ;;
  owner <- call env (contract_call data_bundle_contract "owner" []) ;;
  print "DataBundle owner: {data_bundle_contract.functions.owner().call()}" [Sh owner] ;;
  sleep 1 ;;
  print "\n--- All Contracts Deployed Successfully! ---" [] ;;
  print "MyToken Address:    {token_contract.address}" [Sh (address token_contract)] ;;
  print "DataReview Address: {data_review_contract.address}"
        [Sh (address data_review_contract)] ;;
  print "DataBundle Address: {data_bundle_contract.address}"
        [Sh (address data_bundle_contract)] ;;
  let contract_addresses :=
    VDict [("MyToken", address token_contract);
           ("DataReview", address data_review_contract);
           ("DataBundle", address data_bundle_contract)] in
  open_write registry_path (json_dumps env contract_addresses) ;;
  print "\nContract addresses saved to contract_addresses.json for future interactions." [] ;;
  print "Deployment process finished." [].

(** The file run as a program: module level, then [main()]. *)
Definition script : M Node unit := module_init ;; main.

(** A fresh process on a node and a working directory. *)
Definition boot (n : Node) (files : gmap string fentry) : state Node :=
  State n files VNone [].

(** At the top level an uncaught exception is reported as a traceback. *)
Definition run (n : Node) (files : gmap string fentry) : outcome unit * state Node :=
  match script (boot n files) with
  | (Raised e, s) =>
      (Raised e, State (node s) (fs s) (default_account s) (Traceback e :: log s))
  | r => r
  end.

(** Events in the order they happened. *)
Definition history (s : state Node) : list event := rev (log s).

End Deploy.

(* ===================================================================== *)
(** * Observations on a run                                              *)
(* ===================================================================== *)

(** The deployment a request belongs to, if any. *)
Definition label_of {X} (c : rpc X) : option string :=
  match c with
  | eth_contract l _ _ => Some l
  | build_transaction l _ _ _ _ => Some l
  | eth_estimate_gas l _ => Some l
  | eth_send_transaction l _ => Some l
  | eth_wait_for_transaction_receipt l _ => Some l
  | debug_traceTransaction l _ => Some l
  | eth_contract_at l _ _ => Some l
  | _ => None
  end.

Definition has_label (name : string) {X} (c : rpc X) : bool :=
  match label_of c with
  | Some l => String.eqb l name
  | None => false
  end.

(** [ev] is work done for contract [name]: opening one of its two build
    artifacts, or any request of its deployment. *)
Definition concerns (name : string) (ev : event) : bool :=
  match ev with
  | Open p _ => String.eqb p (abi_path_of name) || String.eqb p (bytecode_path_of name)
  | Rpc c _ => has_label name c
  | _ => false
  end.

(** A request of the deployment of [name] that constructs or submits its
    creation transaction. *)
Definition submits (name : string) (ev : event) : bool :=
  match ev with
  | Rpc (build_transaction l _ _ _ _) _ => String.eqb l name
  | Rpc (eth_estimate_gas l _) _ => String.eqb l name
  | Rpc (eth_send_transaction l _) _ => String.eqb l name
  | _ => false
  end.

(** [deploy_contract(name, ...)] came to its [return]: the handle was
    obtained, which is its last step. *)
Definition deployed (name : string) (ev : event) : bool :=
  match ev with
  | Rpc (eth_contract_at l _ _) (Ok _) => String.eqb l name
  | _ => false
  end.

(** The transactions submitted, with the deployment they belong to. *)
Definition sends (h : list event) : list (string * tx) :=
  flat_map (fun ev => match ev with
                      | Rpc (eth_send_transaction l t) _ => [(l, t)]
                      | _ => []
                      end) h.

(** The gas estimates the node answered. *)
Definition estimates (h : list event) : list (string * tx * Z) :=
  flat_map (fun ev => match ev with
                      | Rpc (eth_estimate_gas l t) (Ok g) => [(l, t, g)]
                      | _ => []
                      end) h.

(** Addresses of the contracts the node reported as created: the
    [contractAddress] of every receipt with a non-zero status. *)
Definition created (h : list event) : list value :=
  flat_map (fun ev => match ev with
                      | Rpc (eth_wait_for_transaction_receipt _ _) (Ok r) =>
                          if status r =? 0 then [] else [contractAddress r]
                      | _ => []
                      end) h.

(** The files opened, with the mode. *)
Definition opened (h : list event) : list (string * string) :=
  flat_map (fun ev => match ev with
                      | Open p m => [(p, m)]
                      | _ => []
                      end) h.

(** The console output. *)
Definition printed (h : list event) : list (string * list shown) :=
  flat_map (fun ev => match ev with
                      | Print f a => [(f, a)]
                      | _ => []
                      end) h.

(** The milestones of a deployment, for reading the order of a run. *)
Inductive milestone :=
| Built (name : string) (args : list value) (sender : value)
| Submitted (name : string) (t : tx)
| Confirmed (name : string) (r : receipt)
| Bound (name : string) (addr : value)
| Saved (path : string).

Definition milestones (h : list event) : list milestone :=
  flat_map (fun ev => match ev with
                      | Rpc (build_transaction l _ _ args from) _ => [Built l args from]
                      | Rpc (eth_send_transaction l t) _ => [Submitted l t]
                      | Rpc (eth_wait_for_transaction_receipt l _) (Ok r) => [Confirmed l r]
                      | Rpc (eth_contract_at l a _) (Ok _) => [Bound l a]
                      | Open p "w" => [Saved p]
                      | _ => []
                      end) h.

(** The replies to the diagnostic trace requests. *)
Definition traces (h : list event) : list (reply trace) :=
  flat_map (fun ev => match ev with
                      | Rpc (debug_traceTransaction _ _) r => [r]
                      | _ => []
                      end) h.

(** The lines lines 84-90 can print about a reverted transaction. *)
Definition diagnostic_templates : list string :=
  [ "Ganache Revert Reason: {revert_reason}";
    "Ganache Raw Revert Data: {revert_data}";
    "Ganache Error Message: {trace['error']['message']}";
    "Could not trace transaction for revert reason: {trace_e}" ].

Definition diagnostics (h : list event) : list (string * list shown) :=
  filter (fun line => existsb (String.eqb (fst line)) diagnostic_templates) (printed h).

(** The connectivity guard of lines 12-14 took its error branch. *)
Definition guard_message : string :=
  "Error: Not connected to Ganache. Please ensure ganache-cli is running.".

Definition is_guard_message (ev : event) : bool :=
  match ev with
  | Print f _ => String.eqb f guard_message
  | _ => false
  end.

Definition guard_fired (h : list event) : bool := existsb is_guard_message h.

(** Events a call of [load_contract_artifact(name)] can produce: prints
    (never the guard's message) and reads of the two artifacts. *)
Definition load_event (name : string) (ev : event) : bool :=
  match ev with
  | Print f _ => negb (String.eqb f guard_message)
  | Open p m =>
      (String.eqb p (abi_path_of name) || String.eqb p (bytecode_path_of name))
      && String.eqb m "r"
  | _ => false
  end.

(** Events a call of [deploy_contract(name, ...)] can produce: prints
    (never the guard's message) and requests of this deployment. *)
Definition deploy_event (name : string) (ev : event) : bool :=
  match ev with
  | Print f _ => negb (String.eqb f guard_message)
  | Rpc c _ => has_label name c
  | _ => false
  end.

(** The log (newest first) of a [load_contract_artifact(name)] that
    returns. *)
Definition load_success_trace (name : string) : list event :=
  [ Print "--- Finished Loading Artifacts for {contract_name} ---\n" [Sh (VStr name)];
    Print "SUCCESS: Loaded bytecode for {contract_name}." [Sh (VStr name)];
    Open (bytecode_path_of name) "r";
    Print "Attempting to load Bytecode from: {bytecode_path}"
          [Sh (VStr (bytecode_path_of name))];
    Print "SUCCESS: Loaded ABI for {contract_name}." [Sh (VStr name)];
    Open (abi_path_of name) "r";
    Print "Attempting to load ABI from: {abi_path}" [Sh (VStr (abi_path_of name))];
    Print "\n--- Loading Artifacts for {contract_name} ---" [Sh (VStr name)] ].

(** The log (newest first) of a [deploy_contract(name, ...)] that
    returns. *)
Definition deploy_success_trace (name : string) (abi : value) (bytecode : string)
    (args : list value) (sender : value) (t0 : tx) (g : Z) (tx_hash : string)
    (rc : receipt) : list event :=
  [ Rpc (eth_contract_at name (contractAddress rc) abi) (Ok tt);
    Print "SUCCESS: Contract deployed at: {contract_address} (Block: {tx_receipt.blockNumber})"
          [Sh (contractAddress rc); Sh (VInt (blockNumber rc))];
    Rpc (eth_wait_for_transaction_receipt name tx_hash) (Ok rc);
    Print "Waiting for transaction to be mined..." [];
    Print "Deployment transaction sent. Hash: {tx_hash.hex()}" [Sh (VStr tx_hash)];
    Rpc (eth_send_transaction name (<["gas" := VInt (g + 100000)]> t0)) (Ok tx_hash);
    Print "Estimated gas for deployment: {estimated_gas}. Using {tx_build['gas']} gas."
          [Sh (VInt g); Sh (VInt (g + 100000))];
    Rpc (eth_estimate_gas name t0) (Ok g);
    Rpc (build_transaction name abi bytecode args sender) (Ok t0);
    Print "Attempting to deploy contract '{contract_name}' with constructor args: {args}"
          [Sh (VStr name); Sh (VTuple args)];
    Rpc (eth_contract name abi bytecode) (Ok tt) ].

(** Both build artifacts of [name] are readable files. *)
Definition has_artifacts (files : gmap string fentry) (name : string) : Prop :=
  exists ta tb,
    files !! abi_path_of name = Some (FText ta) /\
    files !! bytecode_path_of name = Some (FText tb).

(** Only contracts satisfying [P] have a transaction constructed or
    submitted in [h]. *)
Definition only_submits (P : string -> Prop) (h : list event) : Prop :=
  forall name, existsb (submits name) h = true -> P name.

(** No work for DataReview or DataBundle. *)
Definition before_dependents (ev : event) : bool :=
  negb (concerns "DataReview" ev || concerns "DataBundle" ev).

(** Every submitted transaction carries the estimate answered for the
    transaction it was made from, plus 100000. *)
Definition gas_rule (h : list event) : Prop :=
  forall l t, In (l, t) (sends h) ->
    exists t0 g, In (l, t0, g) (estimates h) /\
                 t = <["gas" := VInt (g + 100000)]> t0 /\
                 t !! "gas" = Some (VInt (g + 100000)).

(** The creation transactions constructed, with the constructor
    arguments and the sender they were built from. *)
Definition builds (h : list event) : list (string * list value * value) :=
  flat_map (fun ev => match ev with
                      | Rpc (build_transaction l _ _ args from) _ => [(l, args, from)]
                      | _ => []
                      end) h.

(** The exceptions raised by the read-back calls of [main]. *)
Definition readback_failures (h : list event) : list exn :=
  flat_map (fun ev => match ev with
                      | Rpc (contract_call _ _ _) (Raise e) => [e]
                      | _ => []
                      end) h.

(** The order [main] deploys in. *)
Definition deployment_sequence : list string := ["MyToken"; "DataReview"; "DataBundle"].

(** A request to the client or the node. *)
Definition is_request (ev : event) : bool :=
  match ev with
  | Rpc _ _ => true
  | _ => false
  end.

(** The file accesses of the script: the two artifacts of each contract
    of the sequence, for reading, and the registry, for writing. *)
Definition file_access_allowed (ev : event) : bool :=
  match ev with
  | Open p m =>
      existsb (fun name => (String.eqb p (abi_path_of name)
                            || String.eqb p (bytecode_path_of name))
                           && String.eqb m "r") deployment_sequence
      || (String.eqb p registry_path && String.eqb m "w")
  | _ => true
  end.

(** The f-string of line 84. *)
Definition revert_reason_template : string := "Ganache Revert Reason: {revert_reason}".

(** A string begins, or ends, with the NUL character. *)
Definition starts_with_nul (s : string) : bool :=
  match s with
  | String c _ => is_nul c
  | EmptyString => false
  end.

Fixpoint ends_with_nul (s : string) : bool :=
  match s with
  | EmptyString => false
  | String c EmptyString => is_nul c
  | String _ r => ends_with_nul r
  end.

(** The characters of a string. *)
Fixpoint chars (s : string) : list ascii :=
  match s with
  | EmptyString => []
  | String c r => c :: chars r
  end.




(* ===================================================================== *)
(** * visualise.py                                                       *)
(* ===================================================================== *)

Module Visualise.

Inductive method := GET | HEAD | POST | PUT | DELETE | PATCH | OPTIONS.

Definition method_eqb (a b : method) : bool :=
  match a, b with
  | GET, GET | HEAD, HEAD | POST, POST | PUT, PUT
  | DELETE, DELETE | PATCH, PATCH | OPTIONS, OPTIONS => true
  | _, _ => false
  end.

Record request := Request { req_method : method; req_path : string }.

(** What the application answers: the file of [read_root]; the lookup of
    a relative path below the directory of a [StaticFiles] mount (the
    file, or 404 when there is none); the schema and the three
    documentation pages of the framework; a redirect (307); 405; 404. *)
Inductive response :=
| FileResponse (path : string) (media_type : string)
| StaticAsset (directory : string) (relative_path : string)
| OpenAPISchema
| SwaggerUI
| SwaggerUIRedirect
| ReDoc
| RedirectResponse (url : string)
| MethodNotAllowed
| NotFound.

(** A mounted application, a plain route of the router ([add_route]),
    or a route made by a decorator such as [@app.get]. *)
Inductive route :=
| Mount (path : string) (directory : string) (name : string)
| Route (path : string) (methods : list method) (endpoint : unit -> response)
| APIRoute (path : string) (methods : list method) (endpoint : unit -> response).

(** The application object: its routes, in registration order. *)
Record FastAPI := { routes : list route }.

(** [app.add_route(path, endpoint)]: the methods default to GET, and a
    plain route that takes GET takes HEAD as well. *)
Definition add_route (path : string) (endpoint : unit -> response) (a : FastAPI) : FastAPI :=
  {| routes := routes a ++ [Route path [GET; HEAD] endpoint] |}.

Definition openapi (_ : unit) : response := OpenAPISchema.
Definition swagger_ui_html (_ : unit) : response := SwaggerUI.
Definition swagger_ui_redirect (_ : unit) : response := SwaggerUIRedirect.
Definition redoc_html (_ : unit) : response := ReDoc.

(** [FastAPI()]: called without arguments, the constructor registers the
    schema at /openapi.json and the documentation pages at /docs,
    /docs/oauth2-redirect and /redoc, in this order. *)
Definition new_FastAPI : FastAPI :=
  add_route "/redoc" redoc_html
    (add_route "/docs/oauth2-redirect" swagger_ui_redirect
       (add_route "/docs" swagger_ui_html
          (add_route "/openapi.json" openapi {| routes := [] |}))).

(** [app.mount(path, StaticFiles(directory=d), name=name)] *)
Definition mount (path directory name : string) (a : FastAPI) : FastAPI :=
  {| routes := routes a ++ [Mount path directory name] |}.

(** [@app.get(path)]: the route takes GET only. *)
Definition get (path : string) (endpoint : unit -> response) (a : FastAPI) : FastAPI :=
  {| routes := routes a ++ [APIRoute path [GET] endpoint] |}.

Definition STATIC_DIR : string := "visualisation".

Definition os_path_join (a b : string) : string := a +:+ "/" +:+ b.

Definition read_root (_ : unit) : response :=
  let html_file_path := os_path_join STATIC_DIR "marketplace_visualiser.html" in
  FileResponse html_file_path "text/html".

Definition app : FastAPI :=
  get "/" read_root (mount "/visualisation" STATIC_DIR "visualisation" new_FastAPI).

(** How a route matches a request: not at all, by its path but not by
    its method, or fully.  A mount matches every path below its prefix,
    whatever the method. *)
Inductive Match := NONE | PARTIAL | FULL.

Definition Match_eqb (a b : Match) : bool :=
  match a, b with
  | NONE, NONE | PARTIAL, PARTIAL | FULL, FULL => true
  | _, _ => false
  end.

Definition allows (methods : list method) (m : method) : bool :=
  existsb (method_eqb m) methods.

Definition matches (r : route) (q : request) : Match :=
  match r with
  | Mount p _ _ => if String.prefix (p +:+ "/") (req_path q) then FULL else NONE
  | Route p ms _ | APIRoute p ms _ =>
      if String.eqb (req_path q) p
      then if allows ms (req_method q) then FULL else PARTIAL
      else NONE
  end.

(** The answer of a route that was chosen.  [StaticFiles] serves GET and
    HEAD and answers 405 to every other method; a route answers 405 to a
    method it does not take. *)
Definition handle (r : route) (q : request) : response :=
  match r with
  | Mount p d _ =>
      if allows [GET; HEAD] (req_method q)
      then StaticAsset d (str_drop (String.length (p +:+ "/")) (req_path q))
      else MethodNotAllowed
  | Route _ ms f | APIRoute _ ms f =>
      if allows ms (req_method q) then f tt else MethodNotAllowed
  end.

Fixpoint first_match (want : Match) (rs : list route) (q : request) : option route :=
  match rs with
  | [] => None
  | r :: rs' => if Match_eqb (matches r q) want then Some r else first_match want rs' q
  end.

(** [path.rstrip('/')] *)
Fixpoint rstrip_slash (s : string) : string :=
  match s with
  | EmptyString => EmptyString
  | String c r =>
      match rstrip_slash r with
      | EmptyString => if Ascii.eqb c "/" then EmptyString else String c EmptyString
      | r' => String c r'
      end
  end.

(** [path.endswith('/')] *)
Fixpoint ends_with_slash (s : string) : bool :=
  match s with
  | EmptyString => false
  | String c EmptyString => Ascii.eqb c "/"
  | String _ r => ends_with_slash r
  end.

(** The path tried when no route matches: without its trailing slashes,
    or with one added. *)
Definition redirect_path (path : string) : string :=
  if ends_with_slash path then rstrip_slash path else path +:+ "/".

(** The route matches the request, fully or but for the method. *)
Definition hit (q : request) (r : route) : bool := negb (Match_eqb (matches r q) NONE).

(** The router: the first route that matches fully answers; failing that
    the first that matches but for the method (it answers 405); failing
    that a redirect when the path with the slash changed matches; 404
    otherwise. *)
Definition dispatch (rs : list route) (q : request) : response :=
  match first_match FULL rs q with
  | Some r => handle r q
  | None =>
      match first_match PARTIAL rs q with
      | Some r => handle r q
      | None =>
          let q' := Request (req_method q) (redirect_path (req_path q)) in
          if negb (String.eqb (req_path q) "/") && existsb (hit q') rs
          then RedirectResponse (redirect_path (req_path q))
          else NotFound
      end
  end.

Definition serve (q : request) : response := dispatch (routes app) q.

End Visualise.

(* ===================================================================== *)
(** * A concrete node for examples                                       *)
(* ===================================================================== *)

Module Demo.

(** What the example node does in the places where a run can branch. *)
Record scenario := Scenario {
  accounts_reply : reply (list string);
  connected_reply : bool;
  revert_on : option string;       (* the deployment whose receipt has status 0 *)
  trace_reply : reply trace
}.

(** The example node counts the creations it has mined; the n-th contract
    gets address 0x followed by n times the letter a. *)
Fixpoint letters (n : nat) : string :=
  match n with
  | O => ""
  | S n' => String "a" (letters n')
  end.

Definition addr_of (n : nat) : value := VStr ("0x" +:+ letters (S n)).

Definition reverts (sc : scenario) (label : string) : bool :=
  match revert_on sc with
  | Some l => String.eqb l label
  | None => false
  end.

Definition demo_respond (sc : scenario) (X : Type) (c : rpc X) : nat -> reply X * nat :=
  match c in rpc X return nat -> reply X * nat with
  | eth_accounts => fun n => (accounts_reply sc, n)
  | is_connected => fun n => (Ok (connected_reply sc), n)
  | client_version => fun n => (Ok "Ganache/v7.9.1", n)
  | eth_block_number => fun n => (Ok (Z.of_nat n), n)
  | eth_chain_id => fun n => (Ok 1337, n)
  | eth_contract _ _ _ => fun n => (Ok tt, n)
  | build_transaction _ _ bytecode args from => fun n =>
      (Ok (<["data" := VStr bytecode]> (<["from" := from]> ∅)), n)
  | eth_estimate_gas _ _ => fun n => (Ok 21000, n)
  | eth_send_transaction label _ => fun n => (Ok ("0xhash" +:+ label), n)
  | eth_wait_for_transaction_receipt label _ => fun n =>
      if reverts sc label
      then (Ok (Receipt 0 VNone (Z.of_nat n)), n)
      else (Ok (Receipt 1 (addr_of n) (Z.of_nat n)), S n)
  | debug_traceTransaction _ _ => fun n => (trace_reply sc, n)
  | eth_contract_at _ _ _ => fun n => (Ok tt, n)
  | contract_call _ _ _ => fun n => (Ok (VInt 0), n)
  end.

Definition demo_env (sc : scenario) : Env nat := {|
  respond := demo_respond sc;
  json_loads := fun text => if String.eqb text "" then None else Some (VStr text);
  json_dumps := fun v =>
    match v with
    | VDict d =>
        String.concat ","
          (map (fun kv => match snd kv with
                          | VStr a => fst kv +:+ "=" +:+ a
                          | _ => fst kv +:+ "=null"
                          end) d)
    | _ => "null"
    end;
  from_wei := fun v _ => Ok v;
  bytes_fromhex := fun s =>
    if String.eqb s "" then Ok [] else Raise (Exn OtherException "non-hexadecimal number found in fromhex() arg");
  utf8_decode_ignore := fun _ => "";
  str_strip := fun s => s
|}.

Definition happy : scenario :=
  Scenario (Ok ["0xdeployer"]) true None (Ok (Trace None None)).

(** MyToken's creation reverts and the trace carries neither a payload
    nor an error. *)
Definition silent_revert : scenario :=
  Scenario (Ok ["0xdeployer"]) true (Some "MyToken") (Ok (Trace (Some "") None)).

(** MyToken's creation reverts with a payload that does not start with
    the selector. *)
Definition raw_revert : scenario :=
  Scenario (Ok ["0xdeployer"]) true (Some "MyToken") (Ok (Trace (Some "0xdeadbeef") None)).

(** The node serves the account list and is gone by the time of the
    connectivity check. *)
Definition flaky : scenario :=
  Scenario (Ok ["0xdeployer"]) false None (Ok (Trace None None)).

(** Nothing listens on the port. *)
Definition unreachable : scenario :=
  Scenario (Raise (Exn OtherException "Connection refused")) false None
           (Ok (Trace None None)).

(** A working directory with the six build artifacts. *)
Definition build_dir : gmap string fentry :=
  <["build/MyToken.json" := FText "[token abi]"]> (
  <["build/MyToken.bin" := FText "6080aa"]> (
  <["build/DataReview.json" := FText "[review abi]"]> (
  <["build/DataReview.bin" := FText "6080bb"]> (
  <["build/DataBundle.json" := FText "[bundle abi]"]> (
  <["build/DataBundle.bin" := FText "6080cc"]> ∅))))).

End Demo.

(** More situations of the example node. *)
Module Cases.

(** The node has no account. *)
Definition no_accounts : Demo.scenario :=
  Demo.Scenario (Ok []) true None (Ok (Trace None None)).

(** MyToken's creation reverts with a payload that is the selector. *)
Definition reason_revert : Demo.scenario :=
  Demo.Scenario (Ok ["0xdeployer"]) true (Some "MyToken")
                (Ok (Trace (Some "0x08c379a0") None)).

(** The example environment with a decoder whose text is padded with NUL
    on both sides, as a decoded ABI string is. *)
Definition padded_env : Env nat := {|
  respond := Demo.demo_respond reason_revert;
  json_loads := json_loads (Demo.demo_env reason_revert);
  json_dumps := json_dumps (Demo.demo_env reason_revert);
  from_wei := from_wei (Demo.demo_env reason_revert);
  bytes_fromhex := bytes_fromhex (Demo.demo_env reason_revert);
  utf8_decode_ignore := fun _ =>
    String Ascii.zero (String Ascii.zero ("Not owner" +:+ String Ascii.zero ""));
  str_strip := str_strip (Demo.demo_env reason_revert)
|}.





End Cases.

(* ===================================================================== *)
(** * Stepping through the script                                        *)
(* ===================================================================== *)

(** Unfold the monad and the primitive operations, leaving the functions
    of the script and the library calls in place. *)
Ltac red_script :=
  cbv beta iota zeta delta
    [fst snd exn_class_of of_reply ret raise node fs default_account log
     call_in_ether json_load open_read open_write call print sleep emit
     get_default_account set_default_account try_except bind exit].

(** Case split on the next answer of the environment. *)
Ltac branch env :=
  match goal with
  | |- context [respond env ?c ?n] =>
      let E := fresh "E" in destruct (respond env c n) as [[?|?] ?] eqn:E
  | |- context [match ?f !! ?p with _ => _ end] =>
      let E := fresh "E" in destruct (f !! p) as [[?| |]|] eqn:E
  | |- context [json_loads env ?t] =>
      let E := fresh "E" in destruct (json_loads env t) eqn:E
  | |- context [from_wei env ?v ?u] =>
      let E := fresh "E" in destruct (from_wei env v u) eqn:E
  | |- context [bytes_fromhex env ?v] =>
      let E := fresh "E" in destruct (bytes_fromhex env v) eqn:E
  | |- context [match payload_of ?t with _ => _ end] =>
      let E := fresh "E" in destruct (payload_of t) eqn:E
  | |- context [match message_of ?t with _ => _ end] =>
      let E := fresh "E" in destruct (message_of t) eqn:E
  | |- context [match ?e with Exn _ _ => _ end] => destruct e as [[] ?]
  | |- context [match ?l with [] => _ | _ :: _ => _ end] => destruct l
  | |- context [if ?b then _ else _] => let E := fresh "E" in destruct b eqn:E
  end; red_script.

(** The events added in front of [tl]. *)
Ltac prefix_of l tl :=
  match l with
  | tl => constr:(@nil event)
  | ?a :: ?l' => let p := prefix_of l' tl in constr:(a :: p)
  end.

Section Functions.
Context {Node : Type} (env : Env Node).

Lemma gas_rule_nil : gas_rule [].
Proof. intros l t []. Qed.

Lemma sends_app h1 h2 : sends (h1 ++ h2) = sends h1 ++ sends h2.
Proof. apply flat_map_app. Qed.

Lemma estimates_app h1 h2 : estimates (h1 ++ h2) = estimates h1 ++ estimates h2.
Proof. apply flat_map_app. Qed.

Lemma gas_rule_app h1 h2 : gas_rule h1 -> gas_rule h2 -> gas_rule (h1 ++ h2).
Proof.
  intros H1 H2 l t Hin. rewrite sends_app in Hin.
  apply in_app_or in Hin as [Hin|Hin];
    [destruct (H1 _ _ Hin) as (t0 & g & Hest & Ht) | destruct (H2 _ _ Hin) as (t0 & g & Hest & Ht)];
    exists t0, g; (split; [|exact Ht]); rewrite estimates_app; apply in_or_app; auto.
Qed.

(** An event that is no submission keeps the rule. *)
Lemma gas_rule_cons ev h : sends [ev] = [] -> gas_rule h -> gas_rule (ev :: h).
Proof.
  intros Hev Hh. change (ev :: h) with ([ev] ++ h).
  apply gas_rule_app; [|exact Hh].
  intros l t Hin. rewrite Hev in Hin. destruct Hin.
Qed.

Lemma gas_rule_rev h : gas_rule h -> gas_rule (rev h).
Proof.
  intros Hh l t Hin.
  unfold sends in Hin. rewrite flat_map_concat_map, map_rev in Hin.
  apply in_concat in Hin as (x & Hx & Hin). apply in_rev in Hx.
  assert (Hs : In (l, t) (sends h)).
  { unfold sends. rewrite flat_map_concat_map. apply in_concat. eauto. }
  destruct (Hh _ _ Hs) as (t0 & g & Hest & Ht). exists t0, g. split; [|exact Ht].
  unfold estimates in *. rewrite flat_map_concat_map in *. rewrite map_rev.
  apply in_concat in Hest as (y & Hy & Hest). apply in_concat.
  exists y. split; [apply in_rev; rewrite rev_involutive; exact Hy | exact Hest].
Qed.

(** What a call of [load_contract_artifact] does to the state: the node
    and the files are untouched, the log grows by prints and by reads of
    the two artifacts; it returns only what the two files hold. *)
Lemma load_contract_artifact_spec name s :
  exists evs,
    snd (load_contract_artifact env name s)
      = State (node s) (fs s) (default_account s) (evs ++ log s) /\
    forallb (load_event name) evs = true /\
    match fst (load_contract_artifact env name s) with
    | Return (abi, bytecode) =>
        exists ta tb,
          fs s !! abi_path_of name = Some (FText ta) /\
          json_loads env ta = Some abi /\
          fs s !! bytecode_path_of name = Some (FText tb) /\
          bytecode = str_strip env tb /\
          evs = load_success_trace name
    | Raised e => True
    | SysExit c => c = None
    end.
Proof.
  destruct s as [n f a l].
  unfold load_contract_artifact. red_script.
  repeat branch env.
  all: match goal with
       | |- exists _, State _ _ _ ?l' = _ /\ _ =>
           let p := prefix_of l' l in exists p
       end.
  all: (split; [reflexivity|]).
  all: split; [cbn; rewrite ?String.eqb_refl, ?orb_true_r; reflexivity|]; eauto 10.
Qed.

(** What a call of [deploy_contract] does: the files are untouched, the
    log grows by prints and requests of this deployment, every
    submission obeys the gas rule; it returns only along the one path of
    [deploy_success_trace], and otherwise ends in [exit(1)] unless the
    factory outside the [try] raised. *)
Lemma deploy_contract_spec name abi bytecode args s :
  exists n' evs,
    snd (deploy_contract env name abi bytecode args s)
      = State n' (fs s) (default_account s) (evs ++ log s) /\
    forallb (deploy_event name) evs = true /\
    gas_rule evs /\
    match fst (deploy_contract env name abi bytecode args s) with
    | Return h =>
        exists t0 g tx_hash rc nb na,
          respond env (eth_wait_for_transaction_receipt name tx_hash) nb = (Ok rc, na) /\
          (status rc =? 0) = false /\
          h = Handle (contractAddress rc) abi /\
          evs = deploy_success_trace name abi bytecode args (default_account s)
                  t0 g tx_hash rc
    | Raised e => exists nb, fst (respond env (eth_contract name abi bytecode) nb) = Raise e
    | SysExit c => c = Some 1
    end.
Proof.
  destruct s as [n f a l].
  unfold deploy_contract, on_revert, report_trace. red_script.
  repeat branch env.
  all: match goal with
       | |- exists _ _, State ?n' _ _ ?l' = _ /\ _ =>
           let p := prefix_of l' l in exists n', p
       end.
  all: (split; [reflexivity|]).
  all: (split; [cbn; unfold has_label; cbn; rewrite ?String.eqb_refl; reflexivity|]).
  all: split;
    [first [ apply gas_rule_nil
           | intros ? ?; cbn [sends estimates flat_map app In];
             intros H; repeat destruct H as [H|H]; try contradiction;
             inversion H; subst; clear H;
             do 2 eexists; split; [left; reflexivity | split; [reflexivity | apply lookup_insert_eq]] ]|].
  all: try reflexivity.
  - destruct x, x4. do 6 eexists. split; [exact E3|]. split; [exact E4|]. split; reflexivity.
  - exists n. rewrite E. reflexivity.
Qed.

End Functions.

(** Step over a call of [load_contract_artifact] or [deploy_contract]
    with its specification. *)
Ltac use_load env :=
  match goal with
  | |- context [load_contract_artifact env ?name ?s] =>
      let evs := fresh "evs" in
      let Hs := fresh "Hs" in
      let Hev := fresh "Hload" in
      let Hres := fresh "Hres" in
      destruct (load_contract_artifact_spec env name s) as (evs & Hs & Hev & Hres);
      destruct (load_contract_artifact env name s) as [[[? ?]|?|?] ?];
      cbn [fst snd node fs default_account log] in Hs, Hres;
      subst
  end.

Ltac use_deploy env :=
  match goal with
  | |- context [deploy_contract env ?name ?abi ?bc ?args ?s] =>
      let evs := fresh "evs" in
      let n' := fresh "n" in
      let Hs := fresh "Hs" in
      let Hev := fresh "Hdeploy" in
      let Hgas := fresh "Hgas" in
      let Hres := fresh "Hres" in
      destruct (deploy_contract_spec env name abi bc args s)
        as (n' & evs & Hs & Hev & Hgas & Hres);
      destruct (deploy_contract env name abi bc args s) as [[?|?|?] ?];
      cbn [fst snd node fs default_account log] in Hs, Hres;
      subst
  end.

Ltac script_step env := first [use_load env | use_deploy env | branch env]; red_script.

(** Walk through every path of [run env n files]; the statement is kept
    folded while walking. *)
Ltac script_steps env :=
  match goal with
  | |- context [run env ?n ?files] => pattern (run env n files)
  end;
  match goal with
  | |- ?P _ => let Q := fresh "Q" in
               set (Q := P);
               unfold run, script, boot, module_init, main; red_script;
               repeat script_step env;
               subst Q; cbv beta; cbn [fst snd node fs default_account log]
  end.

(** Open the facts about the calls that returned. *)
Ltac open_results :=
  repeat match goal with
         | H : exists _, _ |- _ => destruct H as [? H]
         | H : _ /\ _ |- _ => destruct H as [? H]
         end;
  subst.

(** Find an event in a log made of conses and appends. *)
Ltac find_in :=
  match goal with
  | |- In _ (_ :: _) => first [left; reflexivity | right; find_in]
  | |- In _ (_ ++ _) => apply in_or_app; first [left; find_in | right; find_in]
  | |- In _ (deploy_success_trace _ _ _ _ _ _ _ _ _) =>
      unfold deploy_success_trace; find_in
  end.

(* ===================================================================== *)
(** * The script does not look at the registry                           *)
(* ===================================================================== *)

Section Oblivious.
Context {Node : Type} (env : Env Node).















End Oblivious.


Section Scripts.
Context {Node : Type} (env : Env Node).





End Scripts.

Section Runs.
Context {Node : Type} (env : Env Node).

Lemma existsb_rev {A} (f : A -> bool) (l : list A) : existsb f (rev l) = existsb f l.
Proof.
  apply eq_true_iff_eq. rewrite !existsb_exists.
  split; intros (x & Hx & Hf); exists x; (split; [|exact Hf]);
    [apply in_rev in Hx | apply in_rev; rewrite rev_involutive]; exact Hx.
Qed.

Lemma forallb_rev {A} (f : A -> bool) (l : list A) : forallb f (rev l) = forallb f l.
Proof.
  apply eq_true_iff_eq. rewrite !forallb_forall.
  split; intros H x Hx; apply H;
    [apply in_rev; rewrite rev_involutive | apply in_rev in Hx]; exact Hx.
Qed.

Lemma forallb_weaken {A} (p q : A -> bool) (l : list A) :
  (forall x, p x = true -> q x = true) -> forallb p l = true -> forallb q l = true.
Proof. rewrite !forallb_forall. auto. Qed.

(** The shape of a run that comes to its end, and what a run that does
    not leaves in the working directory. *)
Lemma run_shape n files :
  (fst (run env n files) = Return tt ->
   exists acct rest n0 t1 t2 t3 h1 h2 h3 r1 r2 r3 nb1 na1 nb2 na2 nb3 na3,
    respond env eth_accounts n = (Ok (acct :: rest), n0) /\
    respond env (eth_wait_for_transaction_receipt "MyToken" h1) nb1 = (Ok r1, na1) /\
    respond env (eth_wait_for_transaction_receipt "DataReview" h2) nb2 = (Ok r2, na2) /\
    respond env (eth_wait_for_transaction_receipt "DataBundle" h3) nb3 = (Ok r3, na3) /\
    (status r1 =? 0) = false /\ (status r2 =? 0) = false /\ (status r3 =? 0) = false /\
    has_artifacts files "MyToken" /\
    has_artifacts files "DataReview" /\
    has_artifacts files "DataBundle" /\
    milestones (history (snd (run env n files))) =
      [ Built "MyToken" [VInt initial_supply] (VStr acct);
        Submitted "MyToken" t1;
        Confirmed "MyToken" r1;
        Bound "MyToken" (contractAddress r1);
        Built "DataReview" [contractAddress r1; VStr acct] (VStr acct);
        Submitted "DataReview" t2;
        Confirmed "DataReview" r2;
        Bound "DataReview" (contractAddress r2);
        Built "DataBundle" [contractAddress r1; VStr acct] (VStr acct);
        Submitted "DataBundle" t3;
        Confirmed "DataBundle" r3;
        Bound "DataBundle" (contractAddress r3);
        Saved registry_path ] /\
    created (history (snd (run env n files))) =
      [contractAddress r1; contractAddress r2; contractAddress r3] /\
    opened (history (snd (run env n files))) =
      [ (abi_path_of "MyToken", "r"); (bytecode_path_of "MyToken", "r");
        (abi_path_of "DataReview", "r"); (bytecode_path_of "DataReview", "r");
        (abi_path_of "DataBundle", "r"); (bytecode_path_of "DataBundle", "r");
        (registry_path, "w") ] /\
    fs (snd (run env n files)) =
      <[registry_path :=
          FText (json_dumps env
                   (VDict [ ("MyToken", contractAddress r1);
                            ("DataReview", contractAddress r2);
                            ("DataBundle", contractAddress r3) ]))]> files) /\
  (fst (run env n files) <> Return tt -> fs (snd (run env n files)) = files).
Proof.
  script_steps env.
  all: split; [intros Hret; try discriminate Hret
              | intros Hne; try reflexivity; exfalso; apply Hne; reflexivity].
  all: clear Hret; open_results; cbn [address abi_of] in *.
  all: do 18 eexists.
  all: repeat match goal with |- _ /\ _ => split end; try eassumption.
  all: try (unfold has_artifacts; eauto; fail).
  all: cbn [history log milestones created opened flat_map rev app
            deploy_success_trace load_success_trace];
       repeat match goal with H : (status _ =? 0) = false |- _ => rewrite H; clear H end;
       reflexivity.
Qed.




(** ** Facts about the events of one call *)

Lemma load_events_send_nothing name evs :
  forallb (load_event name) evs = true -> sends evs = [].
Proof.
  induction evs as [|ev evs IH]; [reflexivity|].
  cbn [forallb]. intros [Hev Hevs]%andb_prop.
  destruct ev; try discriminate; cbn [sends flat_map app]; exact (IH Hevs).
Qed.

Lemma load_events_gas_rule name evs :
  forallb (load_event name) evs = true -> gas_rule evs.
Proof.
  intros H l t Hin. rewrite (load_events_send_nothing _ _ H) in Hin. destruct Hin.
Qed.

Lemma only_submits_nil P : only_submits P [].
Proof. intros name H. discriminate H. Qed.

Lemma only_submits_app P h1 h2 :
  only_submits P h1 -> only_submits P h2 -> only_submits P (h1 ++ h2).
Proof.
  intros H1 H2 name H. rewrite existsb_app in H.
  apply orb_prop in H as [H|H]; auto.
Qed.

Lemma only_submits_cons P ev h :
  (forall name, submits name ev = false) -> only_submits P h -> only_submits P (ev :: h).
Proof.
  intros Hev Hh name H. cbn [existsb] in H. rewrite Hev in H. exact (Hh name H).
Qed.

Lemma only_submits_rev P h : only_submits P h -> only_submits P (rev h).
Proof. intros Hh name H. rewrite existsb_rev in H. exact (Hh name H). Qed.

Lemma load_events_submit_nothing P name evs :
  forallb (load_event name) evs = true -> only_submits P evs.
Proof.
  intros Hall other H. exfalso.
  apply existsb_exists in H as (ev & Hin & Hev).
  rewrite forallb_forall in Hall. specialize (Hall ev Hin).
  destruct ev; discriminate.
Qed.

Lemma deploy_events_submit_own (P : string -> Prop) name evs :
  P name -> forallb (deploy_event name) evs = true -> only_submits P evs.
Proof.
  intros HP Hall other H.
  apply existsb_exists in H as (ev & Hin & Hev).
  rewrite forallb_forall in Hall. specialize (Hall ev Hin).
  destruct ev as [| X c r | | |]; try discriminate.
  destruct c; try discriminate; cbn in Hall, Hev;
    apply String.eqb_eq in Hall, Hev; congruence.
Qed.

Lemma forallb_cons_true {A} (f : A -> bool) a l :
  f a = true -> forallb f l = true -> forallb f (a :: l) = true.
Proof. intros Ha Hl. cbn. rewrite Ha, Hl. reflexivity. Qed.

Lemma forallb_app_true {A} (f : A -> bool) l1 l2 :
  forallb f l1 = true -> forallb f l2 = true -> forallb f (l1 ++ l2) = true.
Proof. intros H1 H2. rewrite forallb_app, H1, H2. reflexivity. Qed.

Lemma token_load_before_dependents evs :
  forallb (load_event "MyToken") evs = true -> forallb before_dependents evs = true.
Proof.
  apply forallb_weaken. intros [f a| X c r | p m | z | e] H; try discriminate; try reflexivity.
  cbn in H. apply andb_prop in H as [H _]. apply orb_prop in H as [H|H];
    apply String.eqb_eq in H; subst p; reflexivity.
Qed.

Lemma token_deploy_before_dependents evs :
  forallb (deploy_event "MyToken") evs = true -> forallb before_dependents evs = true.
Proof.
  apply forallb_weaken. intros [f a| X c r | p m | z | e] H; try discriminate; try reflexivity.
  destruct c; try discriminate; cbn in H; apply String.eqb_eq in H; subst; reflexivity.
Qed.

(** Every path of a run obeys the gas rule. *)
Lemma run_gas_rule n files : gas_rule (history (snd (run env n files))).
Proof.
  script_steps env.
  all: unfold history; cbn [log]; apply gas_rule_rev.
  all: repeat first
         [ apply gas_rule_nil
         | apply gas_rule_cons; [reflexivity|]
         | apply gas_rule_app;
           [first [assumption | eapply load_events_gas_rule; eassumption]|] ].
Qed.

(** Only a contract whose two artifacts were read has a transaction
    constructed or submitted. *)
Lemma run_submits_loaded n files :
  only_submits (has_artifacts files) (history (snd (run env n files))).
Proof.
  script_steps env.
  all: unfold history; cbn [log]; apply only_submits_rev.
  all: repeat first
         [ apply only_submits_nil
         | apply only_submits_cons; [intros ?; reflexivity|]
         | apply only_submits_app;
           [first [ eapply load_events_submit_nothing; eassumption
                  | eapply deploy_events_submit_own;
                    [|eassumption];
                    match goal with
                    | H : exists _ _, _ |- _ =>
                        destruct H as (? & ? & ? & _ & ? & _); unfold has_artifacts; eauto; fail
                    end ]|] ].
Qed.

(** C7. In every run, whatever the node answers, each transaction that
    is submitted is the transaction the gas was estimated for with its
    gas limit set to the estimate the node answered plus exactly
    100000. *)
Theorem gas_limit_is_estimate_plus_buffer n files l t :
  In (l, t) (sends (history (snd (run env n files)))) ->
  exists t0 g,
    In (l, t0, g) (estimates (history (snd (run env n files)))) /\
    t = <["gas" := VInt (g + 100000)]> t0 /\
    t !! "gas" = Some (VInt (g + 100000)).
Proof. apply run_gas_rule. Qed.

(** C4. If [deploy_contract("MyToken", ...)] does not come to its return
    in a run (whatever the stage it fails at), the run contains no work
    for DataReview or DataBundle: none of their artifacts is opened and
    no request of their deployments is made. *)
Theorem token_failure_short_circuits n files :
  existsb (deployed "MyToken") (history (snd (run env n files))) = false ->
  forallb before_dependents (history (snd (run env n files))) = true.
Proof.
  script_steps env.
  all: unfold history; cbn [log]; rewrite existsb_rev, forallb_rev; intros Hno.
  all: first
    [ solve [ repeat first
                [ reflexivity
                | apply forallb_cons_true; [reflexivity|]
                | apply forallb_app_true;
                  [first [ apply token_load_before_dependents; assumption
                         | apply token_deploy_before_dependents; assumption ]|] ] ]
    | exfalso; open_results;
      match type of Hno with
      | existsb ?f ?l = false =>
          assert (Hyes : existsb f l = true)
            by (apply existsb_exists;
                eexists (Rpc (eth_contract_at "MyToken" _ _) (Ok tt));
                split; [find_in | reflexivity]);
          rewrite Hyes in Hno; discriminate Hno
      end ].
Qed.

(** C6. [load_contract_artifact(name)] reports and ends the process with
    [exit()] when the descriptor file is missing, when its text is not
    JSON, and when the bytecode file is missing; each file is opened once
    (no retry) and the node is not contacted.  It never returns when one
    of the two files is missing.  In a run, a contract of the sequence
    with a missing artifact file has no transaction constructed,
    estimated or submitted, and the run does not come to its end. *)
Theorem load_artifact_failures name s :
  (fs s !! abi_path_of name = None ->
   load_contract_artifact env name s =
     (SysExit None,
      State (node s) (fs s) (default_account s)
        ([ Print "Please ensure you have compiled your Solidity contracts and renamed the .abi files to .json." [];
           Print "ERROR: ABI file '{abi_path}' not found in build/ directory."
                 [Sh (VStr (abi_path_of name))];
           Open (abi_path_of name) "r";
           Print "Attempting to load ABI from: {abi_path}" [Sh (VStr (abi_path_of name))];
           Print "\n--- Loading Artifacts for {contract_name} ---" [Sh (VStr name)] ]
         ++ log s))) /\
  (forall text,
     fs s !! abi_path_of name = Some (FText text) ->
     json_loads env text = None ->
     load_contract_artifact env name s =
       (SysExit None,
        State (node s) (fs s) (default_account s)
          ([ Print "ERROR: Could not parse JSON from '{abi_path}'. Is it a valid JSON file?"
                   [Sh (VStr (abi_path_of name))];
             Open (abi_path_of name) "r";
             Print "Attempting to load ABI from: {abi_path}" [Sh (VStr (abi_path_of name))];
             Print "\n--- Loading Artifacts for {contract_name} ---" [Sh (VStr name)] ]
           ++ log s))) /\
  (forall text abi,
     fs s !! abi_path_of name = Some (FText text) ->
     json_loads env text = Some abi ->
     fs s !! bytecode_path_of name = None ->
     load_contract_artifact env name s =
       (SysExit None,
        State (node s) (fs s) (default_account s)
          ([ Print "Please ensure you have compiled your Solidity contracts and the .bin files are present and correctly named." [];
             Print "ERROR: Bytecode file '{bytecode_path}' not found in build/ directory."
                   [Sh (VStr (bytecode_path_of name))];
             Open (bytecode_path_of name) "r";
             Print "Attempting to load Bytecode from: {bytecode_path}"
                   [Sh (VStr (bytecode_path_of name))];
             Print "SUCCESS: Loaded ABI for {contract_name}." [Sh (VStr name)];
             Open (abi_path_of name) "r";
             Print "Attempting to load ABI from: {abi_path}" [Sh (VStr (abi_path_of name))];
             Print "\n--- Loading Artifacts for {contract_name} ---" [Sh (VStr name)] ]
           ++ log s))) /\
  (fs s !! abi_path_of name = None \/ fs s !! bytecode_path_of name = None ->
   forall r, fst (load_contract_artifact env name s) <> Return r) /\
  (forall n files,
     In name ["MyToken"; "DataReview"; "DataBundle"] ->
     files !! abi_path_of name = None \/ files !! bytecode_path_of name = None ->
     fst (run env n files) <> Return tt /\
     existsb (submits name) (history (snd (run env n files))) = false).
Proof.
  destruct s as [n0 f a l]. cbn [node fs default_account log].
  split; [intros H; unfold load_contract_artifact; red_script; rewrite H; reflexivity|].
  split; [intros text H Hj; unfold load_contract_artifact; red_script;
          rewrite H; red_script; rewrite Hj; reflexivity|].
  split; [intros text abi H Hj Hb; unfold load_contract_artifact; red_script;
          rewrite H; red_script; rewrite Hj; red_script; rewrite Hb; reflexivity|].
  split.
  { intros Hmissing [abi bytecode] Hret.
    destruct (load_contract_artifact_spec env name (State n0 f a l))
      as (evs & _ & _ & Hres).
    rewrite Hret in Hres. cbn [fs] in Hres.
    destruct Hres as (ta & tb & Ha & _ & Hb & _).
    destruct Hmissing as [H|H]; congruence. }
  intros n files Hname Hmissing.
  assert (Hnot : ~ has_artifacts files name).
  { intros (ta & tb & Ha & Hb). destruct Hmissing as [H|H]; congruence. }
  split.
  - intros Hret.
    destruct (proj1 (run_shape n files) Hret)
      as (? & ? & ? & ? & ? & ? & ? & ? & ? & ? & ? & ? & ? & ? & ? & ? & ? & ?
          & _ & _ & _ & _ & _ & _ & _ & H1 & H2 & H3 & _).
    cbn in Hname. destruct Hname as [<-|[<-|[<-|[]]]]; auto.
  - destruct (existsb (submits name) (history (snd (run env n files)))) eqn:Hsub;
      [|reflexivity].
    destruct (Hnot (run_submits_loaded n files name Hsub)).
Qed.

(** C3, as the code has it.  Let the node accept a creation transaction
    and answer a receipt with status 0.  Then [deploy_contract] makes one
    trace request and prints at most one diagnostic line: the decoded
    reason when the trace has a non-empty payload that starts with the
    [Error(string)] selector and whose rest is hexadecimal; the raw
    payload when it is non-empty and starts otherwise; the message of the
    trace's error when the payload is absent or empty; nothing when the
    trace has neither.  An exception of the trace request, or of the
    decoding, is caught and reported on one line.  In every one of these
    cases the call then reports the failure and ends the process with
    [exit(1)]. *)
Theorem revert_is_diagnosed_then_fatal name abi bytecode args s
    n1 t0 n2 g n3 tx_hash n4 rc n5 :
  respond env (eth_contract name abi bytecode) (node s) = (Ok tt, n1) ->
  respond env (build_transaction name abi bytecode args (default_account s)) n1
    = (Ok t0, n2) ->
  respond env (eth_estimate_gas name t0) n2 = (Ok g, n3) ->
  respond env (eth_send_transaction name (<["gas" := VInt (g + 100000)]> t0)) n3
    = (Ok tx_hash, n4) ->
  respond env (eth_wait_for_transaction_receipt name tx_hash) n4 = (Ok rc, n5) ->
  status rc = 0 ->
  let r := deploy_contract env name abi bytecode args s in
  let answer := fst (respond env (debug_traceTransaction name tx_hash) n5) in
  fst r = SysExit (Some 1) /\
  exit_status (fst r) = 1 /\
  exists new,
    log (snd r) = new ++ log s /\
    traces (rev new) = [answer] /\
    In ("FATAL ERROR: Failed to deploy contract. Details: {e}",
        [ShExn (Exn OtherException "Contract deployment failed due to revert.")])
       (printed (rev new)) /\
    diagnostics (rev new) =
      match answer with
      | Raise e =>
          [("Could not trace transaction for revert reason: {trace_e}", [ShExn e])]
      | Ok t =>
          match payload_of t with
          | Some revert_data =>
              if String.prefix error_selector revert_data then
                match bytes_fromhex env (str_drop 10 revert_data) with
                | Ok raw =>
                    [("Ganache Revert Reason: {revert_reason}",
                      [Sh (VStr (strip_nul (utf8_decode_ignore env raw)))])]
                | Raise e =>
                    [("Could not trace transaction for revert reason: {trace_e}",
                      [ShExn e])]
                end
              else [("Ganache Raw Revert Data: {revert_data}", [Sh (VStr revert_data)])]
          | None =>
              match message_of t with
              | Some message =>
                  [("Ganache Error Message: {trace['error']['message']}",
                    [Sh (VStr message)])]
              | None => []
              end
          end
      end.
Proof.
  destruct s as [n f a l]. cbn [node default_account].
  intros E1 E2 E3 E4 E5 Hst. cbv zeta.
  unfold deploy_contract, on_revert, report_trace. red_script.
  rewrite E1. red_script. rewrite E2. red_script. rewrite E3. red_script.
  rewrite E4. red_script. rewrite E5. red_script. rewrite Hst.
  change (0 =? 0) with true. red_script.
  repeat branch env.
  all: split; [reflexivity|]; split; [reflexivity|].
  all: match goal with
       | |- exists _, ?l' = _ /\ _ => let p := prefix_of l' l in exists p
       end.
  all: split; [reflexivity|]; split; [reflexivity|].
  all: split; [cbn; auto 20 | reflexivity].
Qed.

Lemma existsb_cons_false {A} (f : A -> bool) a l :
  f a = false -> existsb f l = false -> existsb f (a :: l) = false.
Proof. intros Ha Hl. cbn. rewrite Ha, Hl. reflexivity. Qed.

Lemma existsb_app_false {A} (f : A -> bool) l1 l2 :
  existsb f l1 = false -> existsb f l2 = false -> existsb f (l1 ++ l2) = false.
Proof. intros H1 H2. rewrite existsb_app, H1, H2. reflexivity. Qed.

Lemma existsb_none {A} (p q : A -> bool) (l : list A) :
  (forall x, p x = true -> q x = false) -> forallb p l = true -> existsb q l = false.
Proof.
  intros Hpq Hall. rewrite forallb_forall in Hall.
  destruct (existsb q l) eqn:Hex; [|reflexivity].
  apply existsb_exists in Hex as (x & Hin & Hq).
  rewrite (Hpq x (Hall x Hin)) in Hq. discriminate Hq.
Qed.

Lemma load_events_no_guard name evs :
  forallb (load_event name) evs = true -> existsb is_guard_message evs = false.
Proof.
  apply existsb_none. intros [f a| X c r | p m | z | e] H; try reflexivity.
  cbn in *. apply negb_true_iff in H. exact H.
Qed.

Lemma deploy_events_no_guard name evs :
  forallb (deploy_event name) evs = true -> existsb is_guard_message evs = false.
Proof.
  apply existsb_none. intros [f a| X c r | p m | z | e] H; try reflexivity.
  cbn in *. apply negb_true_iff in H. exact H.
Qed.

(** When the guard's message is printed in a run, by the answers of the
    first two requests. *)
Lemma run_guard n files :
  match respond env eth_accounts n with
  | (Ok (acct :: rest), n1) =>
      match respond env is_connected n1 with
      | (Ok false, n2) =>
          guard_fired (history (snd (run env n files))) = true /\
          fst (run env n files) = SysExit None
      | _ => guard_fired (history (snd (run env n files))) = false
      end
  | _ => guard_fired (history (snd (run env n files))) = false
  end.
Proof.
  script_steps env.
  all: repeat match goal with
              | H : respond env eth_accounts _ = _ |- _ => rewrite H; clear H
              | H : respond env is_connected _ = _ |- _ => rewrite H; clear H
              end.
  all: try match goal with
           | H : negb ?b = _ |- _ => destruct b; try discriminate H; clear H
           end.
  all: try (split; reflexivity).
  all: unfold guard_fired, history; cbn [log]; rewrite existsb_rev.
  all: repeat first
         [ reflexivity
         | apply existsb_cons_false; [reflexivity|]
         | apply existsb_app_false;
           [first [ eapply load_events_no_guard; eassumption
                  | eapply deploy_events_no_guard; eassumption ]|] ].
Qed.

(** C10, as the code has it.  The account list is read before the
    connectivity check.  When the account-list request raises, as it
    does when nothing answers at start-up, the run ends there with the
    uncaught exception: the guard is never evaluated.  In a run the
    error branch of the guard is taken exactly when the account-list
    request was answered with at least one account and the connectivity
    check after it answered false; the process then ends with
    [exit()]. *)
Theorem guard_needs_served_accounts n files :
  (forall e n', respond env eth_accounts n = (Raise e, n') ->
     run env n files =
       (Raised e, State n' files VNone [Traceback e; Rpc eth_accounts (Raise e)])) /\
  (guard_fired (history (snd (run env n files))) = true <->
   exists acct rest n1 n2,
     respond env eth_accounts n = (Ok (acct :: rest), n1) /\
     respond env is_connected n1 = (Ok false, n2)) /\
  (guard_fired (history (snd (run env n files))) = true ->
   fst (run env n files) = SysExit None).
Proof.
  split; [intros e n' E; unfold run, script, boot, module_init; red_script;
          rewrite E; reflexivity|].
  pose proof (run_guard n files) as H.
  destruct (respond env eth_accounts n) as [[[|acct rest]|e] n1] eqn:Eacc;
    try (rewrite H; split; [split; [discriminate | intros (? & ? & ? & ? & [=] & _)]
                           | discriminate]).
  destruct (respond env is_connected n1) as [[[]|e] n2] eqn:Econ;
    try (rewrite H; split;
         [split; [discriminate
                 | intros (? & ? & ? & ? & [= <- <- <-] & H');
                   rewrite Econ in H'; discriminate]
         | discriminate]).
  destruct H as [Hg Hexit]. split; [split; [intros _; eauto 10 | intros _; exact Hg]|].
  intros _. exact Hexit.
Qed.

End Runs.

(* ===================================================================== *)
(** * The routes of visualise.py                                         *)
(* ===================================================================== *)

Lemma prefix_split p s :
  String.prefix p s = true -> s = p +:+ str_drop (String.length p) s.
Proof.
  revert s. induction p as [|c p IH]; intros [|d s] H; cbn in *;
    try reflexivity; try discriminate.
  destruct (Ascii.ascii_dec c d) as [->|]; [|discriminate].
  change (String d s = String d (p +:+ str_drop (String.length p) s)).
  f_equal. exact (IH s H).
Qed.

(** Is the path this literal?  If so, go on with the literal. *)
Ltac by_path path lit :=
  let E := fresh "E" in
  destruct (String.eqb path lit) eqn:E;
  [apply String.eqb_eq in E; subst path | ].

Section Routes.
Import Visualise.

(** C9 as stated fails here: the application has six routes, not two,
    and besides the page and the static files it serves the schema of
    its API and the interactive documentation. *)
Lemma documentation_routes_are_served :
  length (routes app) = 6%nat /\
  serve (Request GET "/openapi.json") = OpenAPISchema /\
  serve (Request GET "/docs") = SwaggerUI /\
  serve (Request GET "/docs/oauth2-redirect") = SwaggerUIRedirect /\
  serve (Request GET "/redoc") = ReDoc.
Proof. vm_compute. repeat split. Qed.

(** C9. The application starts with the four routes its constructor
    registers (the schema and the documentation pages), and the module
    adds exactly two: the mount of the static directory at
    /visualisation and GET on the root.  GET on the root answers the
    fixed document visualisation/marketplace_visualiser.html with media
    type text/html; GET and HEAD on a path below the mount answer the
    asset of that relative path in the static directory.  Conversely the
    page is answered to GET on the root only, an asset only below the
    mount and only to GET or HEAD, the schema and each documentation
    page only at its own path; every other request gets 405, a redirect
    or 404. *)
Theorem Visualise_adds_two_routes :
  routes new_FastAPI =
    [ Route "/openapi.json" [GET; HEAD] openapi;
      Route "/docs" [GET; HEAD] swagger_ui_html;
      Route "/docs/oauth2-redirect" [GET; HEAD] swagger_ui_redirect;
      Route "/redoc" [GET; HEAD] redoc_html ] /\
  routes app =
    routes new_FastAPI ++
    [ Mount "/visualisation" "visualisation" "visualisation";
      APIRoute "/" [GET] read_root ] /\
  serve (Request GET "/") =
    FileResponse "visualisation/marketplace_visualiser.html" "text/html" /\
  (forall rel,
     serve (Request GET ("/visualisation/" +:+ rel)) = StaticAsset "visualisation" rel) /\
  (forall rel,
     serve (Request HEAD ("/visualisation/" +:+ rel)) = StaticAsset "visualisation" rel) /\
  forall q,
    match serve q with
    | FileResponse path media =>
        q = Request GET "/" /\
        path = "visualisation/marketplace_visualiser.html" /\ media = "text/html"
    | StaticAsset directory rel =>
        directory = "visualisation" /\
        req_path q = "/visualisation/" +:+ rel /\
        allows [GET; HEAD] (req_method q) = true
    | OpenAPISchema =>
        req_path q = "/openapi.json" /\ allows [GET; HEAD] (req_method q) = true
    | SwaggerUI =>
        req_path q = "/docs" /\ allows [GET; HEAD] (req_method q) = true
    | SwaggerUIRedirect =>
        req_path q = "/docs/oauth2-redirect" /\ allows [GET; HEAD] (req_method q) = true
    | ReDoc =>
        req_path q = "/redoc" /\ allows [GET; HEAD] (req_method q) = true
    | MethodNotAllowed =>
        req_method q <> GET /\ (req_method q = HEAD -> req_path q = "/")
    | RedirectResponse url =>
        url = redirect_path (req_path q) /\ req_path q <> "/" /\
        String.prefix "/visualisation/" (req_path q) = false
    | NotFound =>
        req_path q <> "/" /\ String.prefix "/visualisation/" (req_path q) = false
    end.
Proof.
  split; [reflexivity|]. split; [reflexivity|]. split; [reflexivity|].
  split; [intros [|c rel]; reflexivity|].
  split; [intros [|c rel]; reflexivity|].
  intros [m path]. unfold serve, dispatch. cbn [req_path req_method].
  by_path path "/openapi.json"; [destruct m; cbn; repeat split; congruence|].
  by_path path "/docs"; [destruct m; cbn; repeat split; congruence|].
  by_path path "/docs/oauth2-redirect"; [destruct m; cbn; repeat split; congruence|].
  by_path path "/redoc"; [destruct m; cbn; repeat split; congruence|].
  by_path path "/"; [destruct m; cbn; repeat split; congruence|].
  destruct (String.prefix "/visualisation/" path) eqn:Hp.
  - pose proof (prefix_split _ _ Hp) as Hs.
    change (String.length "/visualisation/") with 15%nat in Hs.
    cbn. change ("/visualisation" +:+ "/") with "/visualisation/".
    rewrite E, E0, E1, E2, Hp. cbn.
    destruct m; cbn; repeat split; try congruence; try exact Hs.
  - cbn. change ("/visualisation" +:+ "/") with "/visualisation/".
    rewrite E, E0, E1, E2, E3, Hp. cbn.
    apply String.eqb_neq in E3.
    match goal with |- context [if ?b then _ else _] => destruct b end;
      repeat split; assumption.
Qed.

End Routes.

(* ===================================================================== *)
(** * The theorems at work on the example node                           *)
(* ===================================================================== *)

Import Demo.

Example strip_nul_both_ends :
  strip_nul (String Ascii.zero (String Ascii.zero ("Not owner" +:+ String Ascii.zero "")))
  = "Not owner".
Proof. reflexivity. Qed.

Example strip_nul_keeps_inner :
  strip_nul ("a" +:+ String Ascii.zero "b") = "a" +:+ String Ascii.zero "b".
Proof. reflexivity. Qed.

Example str_drop_selector : str_drop 10 "0x08c379a04e6f" = "4e6f".
Proof. reflexivity. Qed.

Example payload_of_empty : payload_of (Trace (Some "") None) = None.
Proof. reflexivity. Qed.

Example happy_run_registry :
  fs (snd (run (demo_env happy) 0%nat build_dir)) !! registry_path
  = Some (FText "MyToken=0xa,DataReview=0xaa,DataBundle=0xaaa").
Proof. vm_compute. reflexivity. Qed.

(** C2 at its failing input: the build directory lacks MyToken's
    descriptor.  The error is reported, nothing is submitted, and the
    process ends with [exit()], that is with exit status 0.  The same
    status results from a descriptor that is not JSON and from a missing
    bytecode file. *)
Theorem missing_artifact_exits_with_status_zero :
  let r := run (demo_env happy) 0%nat (delete "build/MyToken.json" build_dir) in
  fst r = SysExit None /\
  exit_status (fst r) = 0 /\
  In ("ERROR: ABI file '{abi_path}' not found in build/ directory.",
      [Sh (VStr "build/MyToken.json")]) (printed (history (snd r))) /\
  sends (history (snd r)) = [] /\
  exit_status
    (fst (run (demo_env happy) 0%nat (<["build/MyToken.json" := FText ""]> build_dir))) = 0 /\
  exit_status
    (fst (run (demo_env happy) 0%nat (delete "build/MyToken.bin" build_dir))) = 0.
Proof.
  vm_compute. repeat split. auto 20.
Qed.


Lemma revert_is_diagnosed_then_fatal_witness :
  let s := State 0%nat build_dir (VStr "0xdeployer") [] in
  let r := deploy_contract (demo_env raw_revert) "MyToken" (VStr "[token abi]") "6080aa"
             [VInt initial_supply] s in
  fst r = SysExit (Some 1) /\
  exit_status (fst r) = 1 /\
  exists new,
    log (snd r) = new ++ log s /\
    traces (rev new) = [Ok (Trace (Some "0xdeadbeef") None)] /\
    diagnostics (rev new) =
      [("Ganache Raw Revert Data: {revert_data}", [Sh (VStr "0xdeadbeef")])].
Proof.
  destruct (revert_is_diagnosed_then_fatal (demo_env raw_revert)
              "MyToken" (VStr "[token abi]") "6080aa" [VInt initial_supply]
              (State 0%nat build_dir (VStr "0xdeployer") [])
              0%nat
              (<["data" := VStr "6080aa"]> (<["from" := VStr "0xdeployer"]> ∅))
              0%nat 21000 0%nat "0xhashMyToken" 0%nat (Receipt 0 VNone 0) 0%nat)
    as (Hexit & Hstatus & new & Hlog & Htr & _ & Hdiag);
    try reflexivity.
  split; [exact Hexit|]. split; [exact Hstatus|].
  exists new. split; [exact Hlog|]. split; [exact Htr | exact Hdiag].
Defined.

(** C3 as stated fails here: MyToken's creation reverts, the trace is
    obtained and its payload is empty, so it does not start with the
    selector; yet neither the raw payload nor an error message is
    printed.  The process still ends with status 1. *)
Lemma revert_without_payload_prints_no_diagnosis :
  let r := run (demo_env silent_revert) 0%nat build_dir in
  traces (history (snd r)) = [Ok (Trace (Some "") None)] /\
  String.prefix error_selector "" = false /\
  diagnostics (history (snd r)) = [] /\
  exit_status (fst r) = 1.
Proof. vm_compute. repeat split. Qed.

Lemma token_failure_short_circuits_witness :
  existsb (deployed "MyToken")
    (history (snd (run (demo_env silent_revert) 0%nat build_dir))) = false /\
  forallb before_dependents
    (history (snd (run (demo_env silent_revert) 0%nat build_dir))) = true.
Proof.
  split; [vm_compute; reflexivity|].
  apply (token_failure_short_circuits (demo_env silent_revert) 0%nat build_dir).
  vm_compute; reflexivity.
Defined.



Lemma load_artifact_failures_witness :
  fst (load_contract_artifact (demo_env happy) "DataReview"
         (boot 0%nat (delete "build/DataReview.json" build_dir))) = SysExit None /\
  fst (load_contract_artifact (demo_env happy) "DataReview"
         (boot 0%nat (<["build/DataReview.json" := FText ""]> build_dir))) = SysExit None /\
  fst (load_contract_artifact (demo_env happy) "DataReview"
         (boot 0%nat (delete "build/DataReview.bin" build_dir))) = SysExit None /\
  fst (run (demo_env happy) 0%nat (delete "build/DataReview.bin" build_dir)) <> Return tt /\
  existsb (submits "DataReview")
    (history (snd (run (demo_env happy) 0%nat (delete "build/DataReview.bin" build_dir))))
    = false.
Proof.
  pose proof (load_artifact_failures (demo_env happy) "DataReview"
                (boot 0%nat (delete "build/DataReview.json" build_dir))) as (H1 & _).
  pose proof (load_artifact_failures (demo_env happy) "DataReview"
                (boot 0%nat (<["build/DataReview.json" := FText ""]> build_dir)))
    as (_ & H2 & _).
  pose proof (load_artifact_failures (demo_env happy) "DataReview"
                (boot 0%nat (delete "build/DataReview.bin" build_dir)))
    as (_ & _ & H3 & _ & H4).
  split; [rewrite H1; [reflexivity | vm_compute; reflexivity]|].
  split; [rewrite (H2 ""); [reflexivity | vm_compute; reflexivity | reflexivity]|].
  split; [rewrite (H3 "[review abi]" (VStr "[review abi]"));
          [reflexivity | vm_compute; reflexivity | reflexivity | vm_compute; reflexivity]|].
  apply (H4 0%nat (delete "build/DataReview.bin" build_dir)).
  - cbn; auto.
  - right. vm_compute; reflexivity.
Defined.

Lemma gas_limit_is_estimate_plus_buffer_witness :
  exists t0 g,
    In ("MyToken", t0, g)
       (estimates (history (snd (run (demo_env happy) 0%nat build_dir)))) /\
    <["gas" := VInt 121000]>
      (<["data" := VStr "6080aa"]> (<["from" := VStr "0xdeployer"]> ∅))
      = <["gas" := VInt (g + 100000)]> t0 /\
    (<["gas" := VInt 121000]>
       (<["data" := VStr "6080aa"]> (<["from" := VStr "0xdeployer"]> (∅ : tx))))
      !! "gas" = Some (VInt (g + 100000)).
Proof.
  apply (gas_limit_is_estimate_plus_buffer (demo_env happy) 0%nat build_dir "MyToken").
  vm_compute. left. reflexivity.
Defined.



(** C10 as stated fails here: the node serves the account list and the
    connectivity check that follows answers false, so the error branch
    of the guard runs. *)
Lemma guard_fires_on_flaky_node :
  let r := run (demo_env flaky) 0%nat build_dir in
  guard_fired (history (snd r)) = true /\ fst r = SysExit None.
Proof. vm_compute. split; reflexivity. Qed.

Lemma guard_needs_served_accounts_witness :
  run (demo_env unreachable) 0%nat build_dir =
    (Raised (Exn OtherException "Connection refused"),
     State 0%nat build_dir VNone
       [ Traceback (Exn OtherException "Connection refused");
         Rpc eth_accounts (Raise (Exn OtherException "Connection refused")) ]) /\
  fst (run (demo_env flaky) 0%nat build_dir) = SysExit None.
Proof.
  pose proof (guard_needs_served_accounts (demo_env unreachable) 0%nat build_dir)
    as (H1 & _).
  pose proof (guard_needs_served_accounts (demo_env flaky) 0%nat build_dir)
    as (_ & _ & H3).
  split; [apply H1; reflexivity | apply H3; vm_compute; reflexivity].
Defined.

(* ===================================================================== *)
(** * More about the two scripts                                         *)
(* ===================================================================== *)

(** ** Strings and paths *)

Lemma lstrip_nul_clean s : starts_with_nul (lstrip_nul s) = false.
Proof.
  induction s as [|c s IH]; [reflexivity|].
  cbn. destruct (is_nul c) eqn:Hc; [exact IH | cbn; exact Hc].
Qed.

Lemma rstrip_nul_clean s : ends_with_nul (rstrip_nul s) = false.
Proof.
  induction s as [|c s IH]; [reflexivity|].
  cbn. destruct (rstrip_nul s) as [|d r] eqn:Hr.
  - destruct (is_nul c) eqn:Hc; [reflexivity | cbn; exact Hc].
  - exact IH.
Qed.

Lemma rstrip_nul_keeps_start s :
  starts_with_nul s = false -> starts_with_nul (rstrip_nul s) = false.
Proof.
  destruct s as [|c s]; [reflexivity|]. cbn. intros Hc.
  destruct (rstrip_nul s); [rewrite Hc|]; cbn; exact Hc.
Qed.

Lemma lstrip_nul_id s : starts_with_nul s = false -> lstrip_nul s = s.
Proof. destruct s as [|c s]; [reflexivity|]. cbn. intros ->. reflexivity. Qed.

Lemma rstrip_nul_id s : ends_with_nul s = false -> rstrip_nul s = s.
Proof.
  induction s as [|c s IH]; [reflexivity|].
  destruct s as [|d s].
  - cbn. intros ->. reflexivity.
  - intros H. change (ends_with_nul (String d s) = false) in H.
    cbn [rstrip_nul]. cbn [rstrip_nul] in IH. rewrite (IH H). reflexivity.
Qed.

(** X5. [strip('\x00')] of line 83: the result neither begins nor ends
    with NUL; a string that neither begins nor ends with NUL is returned
    as it is (NUL characters inside are kept); stripping twice is
    stripping once. *)
Theorem strip_nul_trims_both_ends s :
  starts_with_nul (strip_nul s) = false /\
  ends_with_nul (strip_nul s) = false /\
  (starts_with_nul s = false -> ends_with_nul s = false -> strip_nul s = s) /\
  strip_nul (strip_nul s) = strip_nul s.
Proof.
  assert (Ha : starts_with_nul (strip_nul s) = false)
    by (apply rstrip_nul_keeps_start, lstrip_nul_clean).
  assert (Hb : ends_with_nul (strip_nul s) = false) by apply rstrip_nul_clean.
  assert (Hc : forall t, starts_with_nul t = false -> ends_with_nul t = false ->
                         strip_nul t = t).
  { intros t H1 H2. unfold strip_nul. rewrite (lstrip_nul_id _ H1). exact (rstrip_nul_id _ H2). }
  repeat split; auto.
Qed.

Lemma chars_app a b : chars (a +:+ b) = chars a ++ chars b.
Proof.
  induction a as [|c a IH]; [reflexivity|].
  change (c :: chars (a +:+ b) = c :: (chars a ++ chars b)). rewrite IH. reflexivity.
Qed.

Lemma chars_inj a b : chars a = chars b -> a = b.
Proof.
  revert b. induction a as [|c a IH]; intros [|d b] H; try discriminate; [reflexivity|].
  cbn in H. injection H as -> H. f_equal. exact (IH _ H).
Qed.

(** X6. The artifact paths of lines 26-27: two contract names with the
    same descriptor path, or with the same bytecode path, are the same
    name; a descriptor path is never a bytecode path, and neither is ever
    the registry file. *)
Theorem artifact_paths_distinct a b :
  (abi_path_of a = abi_path_of b -> a = b) /\
  (bytecode_path_of a = bytecode_path_of b -> a = b) /\
  abi_path_of a <> bytecode_path_of b /\
  abi_path_of a <> registry_path /\
  bytecode_path_of a <> registry_path.
Proof.
  unfold abi_path_of, bytecode_path_of, registry_path.
  repeat split.
  - intros H. apply (f_equal chars) in H. rewrite !chars_app in H.
    apply app_inv_head, app_inv_tail in H. exact (chars_inj _ _ H).
  - intros H. apply (f_equal chars) in H. rewrite !chars_app in H.
    apply app_inv_head, app_inv_tail in H. exact (chars_inj _ _ H).
  - intros H. apply (f_equal chars) in H. rewrite !chars_app in H.
    apply app_inv_head in H. cbn [chars] in H.
    change (chars a ++ ["."; "j"; "s"; "o"; "n"]%char)
      with (chars a ++ ["."; "j"; "s"; "o"]%char ++ ["n"%char]) in H.
    change (chars b ++ ["."; "b"; "i"; "n"]%char)
      with (chars b ++ ["."; "b"; "i"]%char ++ ["n"%char]) in H.
    rewrite !app_assoc in H. apply app_inj_tail in H as [H _].
    change (chars a ++ ["."; "j"; "s"; "o"]%char)
      with (chars a ++ ["."; "j"; "s"]%char ++ ["o"%char]) in H.
    change (chars b ++ ["."; "b"; "i"]%char)
      with (chars b ++ ["."; "b"]%char ++ ["i"%char]) in H.
    rewrite !app_assoc in H. apply app_inj_tail in H as [_ H]. discriminate H.
  - discriminate.
  - discriminate.
Qed.

(** X7. The slice [revert_data[10:]] of line 83 removes exactly the
    selector tested on line 82: a payload that starts with the selector
    is the selector followed by the text handed to the decoder. *)
Theorem selector_is_sliced_off p :
  String.prefix error_selector p = true ->
  p = error_selector +:+ str_drop 10 p /\
  String.length p = (10 + String.length (str_drop 10 p))%nat.
Proof.
  intros H. pose proof (prefix_split _ _ H) as Hp.
  change (String.length error_selector) with 10%nat in Hp.
  split; [exact Hp|].
  rewrite Hp at 1. clear. generalize (str_drop 10 p). intros r. reflexivity.
Qed.

(** ** The order of the routes *)

Section RouteOrder.
Import Visualise.

(** What the router chooses depends on the routes that match only. *)
Lemma first_match_hits want rs q :
  want <> NONE -> first_match want rs q = first_match want (List.filter (hit q) rs) q.
Proof.
  intros Hw. induction rs as [|r rs IH]; [reflexivity|].
  cbn [first_match List.filter]. unfold hit at 1.
  destruct (matches r q) eqn:E; destruct want; cbn; rewrite ?E; cbn; congruence.
Qed.

Lemma existsb_Permutation {A} (f : A -> bool) l l' :
  Permutation l l' -> existsb f l = existsb f l'.
Proof.
  induction 1; cbn; try congruence.
  destruct (f x), (f y); reflexivity.
Qed.

Lemma filter_Permutation_hits {A} (f : A -> bool) l l' :
  Permutation l l' -> Permutation (List.filter f l) (List.filter f l').
Proof.
  induction 1; cbn.
  - constructor.
  - destruct (f x); [constructor|]; assumption.
  - destruct (f x), (f y); try apply Permutation_refl. apply perm_swap.
  - eapply Permutation_trans; eassumption.
Qed.

Lemma short_Permutation_eq {A} (l l' : list A) :
  (length l' <= 1)%nat -> Permutation l l' -> l = l'.
Proof.
  destruct l' as [|x [|y l']]; intros Hlen Hp.
  - apply Permutation_sym, Permutation_nil in Hp. exact Hp.
  - apply Permutation_sym, Permutation_length_1_inv in Hp. exact Hp.
  - exfalso. cbn [length] in Hlen. apply Nat.succ_le_mono in Hlen. inversion Hlen.
Qed.

Lemma at_most_one_route_hit q : (length (List.filter (hit q) (routes app)) <= 1)%nat.
Proof.
  destruct q as [m path]. unfold hit.
  by_path path "/openapi.json"; [destruct m; vm_compute; lia|].
  by_path path "/docs"; [destruct m; vm_compute; lia|].
  by_path path "/docs/oauth2-redirect"; [destruct m; vm_compute; lia|].
  by_path path "/redoc"; [destruct m; vm_compute; lia|].
  by_path path "/"; [destruct m; vm_compute; lia|].
  cbn. change ("/visualisation" +:+ "/") with "/visualisation/".
  rewrite E, E0, E1, E2, E3. cbn.
  destruct (String.prefix "/visualisation/" path); cbn; lia.
Qed.

(** X8. No request is matched (fully, or but for its method) by two of
    the six routes of the application, so the order in which the routes
    are registered, the module's two among them, does not change any
    answer. *)
Theorem Visualise_routes_do_not_overlap q :
  (length (List.filter (hit q) (routes app)) <= 1)%nat /\
  forall rs, Permutation rs (routes app) -> dispatch rs q = serve q.
Proof.
  split; [apply at_most_one_route_hit|].
  intros rs Hp. unfold serve, dispatch.
  assert (Hhits : forall q', List.filter (hit q') rs = List.filter (hit q') (routes app)).
  { intros q'. apply short_Permutation_eq; [apply at_most_one_route_hit|].
    apply filter_Permutation_hits, Hp. }
  rewrite (first_match_hits FULL rs), (first_match_hits PARTIAL rs) by discriminate.
  rewrite (first_match_hits FULL (routes app)), (first_match_hits PARTIAL (routes app))
    by discriminate.
  rewrite !Hhits. rewrite (existsb_Permutation _ _ _ Hp). reflexivity.
Qed.

Lemma Visualise_routes_do_not_overlap_witness :
  dispatch (rev (routes app)) (Request GET "/") =
    FileResponse "visualisation/marketplace_visualiser.html" "text/html".
Proof.
  destruct (Visualise_routes_do_not_overlap (Request GET "/")) as [_ H].
  rewrite (H (rev (routes app))); [reflexivity|].
  apply Permutation_sym, Permutation_rev.
Defined.

End RouteOrder.

(** ** The requests of one call and of a run *)

Section Requests.
Context {Node : Type} (env : Env Node).

Lemma flat_map_none {A B} (p : A -> bool) (f : A -> list B) (l : list A) :
  (forall x, p x = true -> f x = []) -> forallb p l = true -> flat_map f l = [].
Proof.
  intros Hpf. induction l as [|x l IH]; [reflexivity|].
  cbn. intros [Hx Hl]%andb_prop. rewrite (Hpf x Hx), (IH Hl). reflexivity.
Qed.

Lemma flat_map_rev_small {A B} (f : A -> list B) (l : list A) :
  (forall x, f x = [] \/ exists y, f x = [y]) ->
  flat_map f (rev l) = rev (flat_map f l).
Proof.
  intros Hf. induction l as [|x l IH]; [reflexivity|].
  cbn. rewrite flat_map_app, IH, rev_app_distr. cbn. rewrite app_nil_r.
  destruct (Hf x) as [->|[y ->]]; reflexivity.
Qed.

(** Everything the following proofs need to know about one call of
    [deploy_contract]. *)
Lemma deploy_contract_requests name abi bytecode args s :
  exists n' evs,
    snd (deploy_contract env name abi bytecode args s)
      = State n' (fs s) (default_account s) (evs ++ log s) /\
    forallb (deploy_event name) evs = true /\
    (sends evs = [] \/ exists t, sends evs = [(name, t)]) /\
    (builds evs = [] \/ builds evs = [(name, args, default_account s)]) /\
    match fst (deploy_contract env name abi bytecode args s) with
    | Return h =>
        exists t0 g tx_hash rc,
          (status rc =? 0) = false /\
          h = Handle (contractAddress rc) abi /\
          evs = deploy_success_trace name abi bytecode args (default_account s)
                  t0 g tx_hash rc
    | Raised e =>
        respond env (eth_contract name abi bytecode) (node s) = (Raise e, n') /\
        evs = [Rpc (eth_contract name abi bytecode) (Raise e)]
    | SysExit c =>
        c = Some 1 /\ (traces evs = [] \/ exists r, traces evs = [r])
    end.
Proof.
  destruct s as [n f a l].
  unfold deploy_contract, on_revert, report_trace. red_script.
  repeat branch env.
  all: match goal with
       | |- exists _ _, State ?n' _ _ ?l' = _ /\ _ =>
           let p := prefix_of l' l in exists n', p
       end.
  all: (split; [reflexivity|]).
  all: (split; [cbn; unfold has_label; cbn; rewrite ?String.eqb_refl; reflexivity|]).
  all: (split; [cbn; eauto|]).
  all: (split; [cbn; eauto|]).
  all: cbn [node].
  all: try (split; [reflexivity | cbn; eauto]; fail).
  all: try (split; reflexivity).
  all: repeat match goal with x : unit |- _ => destruct x end;
       do 4 eexists; split; [eassumption|]; split; reflexivity.
Qed.

Lemma load_events_quiet name evs :
  forallb (load_event name) evs = true ->
  sends evs = [] /\ builds evs = [] /\ traces evs = [] /\ readback_failures evs = [].
Proof.
  intros H. repeat split; (eapply flat_map_none; [|exact H]);
    intros [] Hev; try reflexivity; discriminate Hev.
Qed.

Lemma deploy_events_no_readback name evs :
  forallb (deploy_event name) evs = true -> readback_failures evs = [].
Proof.
  intros H. eapply flat_map_none; [|exact H].
  intros [f a| X c r | p m | z | e] Hev; try reflexivity.
  destruct c; try reflexivity. discriminate Hev.
Qed.



Lemma traces_rev h : traces (rev h) = rev (traces h).
Proof.
  apply flat_map_rev_small. intros [f a| X c r | p m | z | e]; auto.
  destruct c; eauto.
Qed.

Lemma readback_failures_rev h : readback_failures (rev h) = rev (readback_failures h).
Proof.
  apply flat_map_rev_small. intros [f a| X c r | p m | z | e]; auto.
  destruct c; auto. destruct r; eauto.
Qed.

End Requests.

Ltac use_requests env :=
  match goal with
  | |- context [deploy_contract env ?name ?abi ?bc ?args ?s] =>
      let evs := fresh "evs" in
      let n' := fresh "n" in
      let Hs := fresh "Hs" in
      let Hev := fresh "Hdeploy" in
      let Hsend := fresh "Hsend" in
      let Hbuild := fresh "Hbuild" in
      let Hres := fresh "Hres" in
      destruct (deploy_contract_requests env name abi bc args s)
        as (n' & evs & Hs & Hev & Hsend & Hbuild & Hres);
      destruct (deploy_contract env name abi bc args s) as [[?|?|?] ?];
      cbn [fst snd node fs default_account log] in Hs, Hres, Hbuild;
      subst
  end.

Ltac walk env :=
  match goal with
  | |- context [run env ?n ?files] => pattern (run env n files)
  end;
  match goal with
  | |- ?P _ => let Q := fresh "Q" in
               set (Q := P);
               unfold run, script, boot, module_init, main; red_script;
               repeat (first [use_load env | use_requests env | branch env]; red_script);
               subst Q; cbv beta; cbn [fst snd node fs default_account log]
  end.

(** Bring what is known about the segments of the log into the shape
    the projections compute with. *)
Ltac segment_facts :=
  repeat match goal with
         | H : ?A \/ _ |- _ =>
             match A with context [deploy_success_trace] => clear H end
         end;
  repeat match goal with
         | H : forallb (load_event _) ?evs = true |- _ =>
             is_var evs;
             destruct (load_events_quiet _ _ H) as (? & ? & ? & ?); clear H
         | H : forallb (deploy_event _) ?evs = true |- _ =>
             is_var evs;
             pose proof (deploy_events_no_readback _ _ H); clear H
         | H : forallb _ _ = true |- _ => clear H
         | H : _ \/ _ |- _ => destruct H as [H | H]
         | H : exists _, _ |- _ => destruct H as [? H]
         end;
  unfold sends, builds, traces, readback_failures in *.

Ltac forget_sends := repeat match goal with H : context [sends] |- _ => clear H end.
Ltac forget_builds := repeat match goal with H : context [builds] |- _ => clear H end.
Ltac forget_traces := repeat match goal with H : context [traces] |- _ => clear H end.

Ltac project :=
  repeat (progress (cbn [flat_map app deploy_success_trace load_success_trace];
                    rewrite ?flat_map_app));
  repeat match goal with
         | H : flat_map _ ?evs = _ |- _ => rewrite H; clear H
         end;
  cbn [app rev map fst snd].


Section Traces.
Context {Node : Type} (env : Env Node).


(** X2. A run asks for at most one diagnostic trace, and a run in which
    a trace was asked for ends with [exit(1)]; a run that returns, or
    ends otherwise, asked for none. *)
Theorem trace_only_after_failed_receipt n files :
  traces (history (snd (run env n files))) = [] \/
  (exists r, traces (history (snd (run env n files))) = [r]) /\
  fst (run env n files) = SysExit (Some 1).
Proof.
  walk env.
  all: open_results; forget_builds; forget_sends;
       unfold history; cbn [log]; rewrite traces_rev.
  all: segment_facts.
  all: project.
  all: first [left; reflexivity | right; split; [eexists; reflexivity | reflexivity]].
Qed.

(** X3. The read-back calls of [main] are outside every [try]: when one
    of them raises, the run ends with that exception uncaught, after
    MyToken was deployed on the node, and the registry file is not
    written.  At most one read-back fails in a run. *)
Theorem readback_failure_aborts n files :
  readback_failures (history (snd (run env n files))) = [] \/
  exists e,
    readback_failures (history (snd (run env n files))) = [e] /\
    fst (run env n files) = Raised e /\
    existsb (deployed "MyToken") (history (snd (run env n files))) = true /\
    fs (snd (run env n files)) = files.
Proof.
  walk env.
  all: open_results; forget_builds; forget_sends; forget_traces;
       unfold history; cbn [log]; rewrite readback_failures_rev.
  all: segment_facts.
  all: project.
  all: first [left; reflexivity
             | right; eexists; split; [reflexivity|]; split; [reflexivity|];
               split; reflexivity].
Qed.


(** X9. [load_contract_artifact(name)], however it ends, makes no request
    to the node, leaves the files and the default account as they are,
    and opens no file but the two artifacts of [name], for reading.  What
    it returns is the parsed text of the descriptor and the stripped text
    of the bytecode file. *)
Theorem load_contract_artifact_only_reads name s :
  let r := load_contract_artifact env name s in
  node (snd r) = node s /\
  fs (snd r) = fs s /\
  default_account (snd r) = default_account s /\
  (exists evs,
     log (snd r) = evs ++ log s /\
     existsb is_request evs = false /\
     forall p m, In (p, m) (opened evs) ->
                 m = "r" /\ (p = abi_path_of name \/ p = bytecode_path_of name)) /\
  (forall abi bytecode,
     fst r = Return (abi, bytecode) ->
     exists ta tb,
       fs s !! abi_path_of name = Some (FText ta) /\
       json_loads env ta = Some abi /\
       fs s !! bytecode_path_of name = Some (FText tb) /\
       bytecode = str_strip env tb).
Proof.
  cbv zeta.
  destruct (load_contract_artifact_spec env name s) as (evs & Hs & Hev & Hres).
  rewrite Hs. cbn [node fs default_account log].
  repeat (split; [reflexivity|]).
  split.
  - exists evs. split; [reflexivity|]. split.
    + eapply existsb_none; [|exact Hev]. intros [] H; try reflexivity; discriminate H.
    + intros p m Hin. unfold opened in Hin. apply in_flat_map in Hin as (ev & Hin & Hev').
      rewrite forallb_forall in Hev. specialize (Hev ev Hin).
      destruct ev as [| | p' m' | |]; try (destruct Hev'; fail).
      destruct Hev' as [[= <- <-]|[]]. cbn in Hev.
      apply andb_prop in Hev as [Hp Hm]. apply String.eqb_eq in Hm.
      apply orb_prop in Hp as [Hp|Hp]; apply String.eqb_eq in Hp; auto.
  - intros abi bytecode Hret. rewrite Hret in Hres.
    destruct Hres as (ta & tb & H1 & H2 & H3 & H4 & _). eauto 10.
Qed.

(** X10. [load_contract_artifact(name)] handles [FileNotFoundError] and,
    for the descriptor, [JSONDecodeError], and nothing else.  A
    descriptor that is there and cannot be opened, or opens and does not
    hold text, makes it raise; so does, the descriptor being read and
    parsed, such a bytecode file.  An exception that escapes it is never
    of a handled class. *)
Theorem load_contract_artifact_unreadable_raises name s :
  let r := load_contract_artifact env name s in
  (forall k, fs s !! abi_path_of name = Some k -> unreadable k = true ->
             exists e, fst r = Raised e) /\
  (forall ta abi k,
     fs s !! abi_path_of name = Some (FText ta) ->
     json_loads env ta = Some abi ->
     fs s !! bytecode_path_of name = Some k -> unreadable k = true ->
     exists e, fst r = Raised e) /\
  (forall e, fst r = Raised e ->
             exn_class_of e <> FileNotFoundError /\ exn_class_of e <> JSONDecodeError).
Proof.
  destruct s as [n f a l]. cbv zeta. cbn [fs].
  unfold load_contract_artifact. red_script.
  repeat branch env.
  all: split; [intros k Hk Hu | split; [intros ta abi k Hta Habi Hk Hu | intros e He]].
  all: simplify_eq/=; eauto.
  all: split; discriminate.
Qed.

(** X11. When the node answers an empty account list, line 10 raises
    [IndexError] and the run ends there with the traceback: nothing is
    printed, the connectivity check is not made, the default account is
    not set. *)
Theorem empty_account_list_is_uncaught n files n' :
  respond env eth_accounts n = (Ok [], n') ->
  run env n files =
    (Raised (Exn IndexError "list index out of range"),
     State n' files VNone
       [ Traceback (Exn IndexError "list index out of range");
         Rpc eth_accounts (Ok []) ]).
Proof.
  intros E. unfold run, script, boot, module_init. red_script. rewrite E. reflexivity.
Qed.

(** X12. Whatever happens in a run, every file other than
    contract_addresses.json holds afterwards what it held before. *)
Theorem build_artifacts_are_never_modified n files p :
  p <> registry_path ->
  fs (snd (run env n files)) !! p = files !! p.
Proof.
  intros Hp. destruct (run_shape env n files) as [Hok Hfail].
  destruct (fst (run env n files)) as [[]|e|c] eqn:Hout.
  - destruct (Hok eq_refl)
      as (? & ? & ? & ? & ? & ? & ? & ? & ? & ? & ? & ? & ? & ? & ? & ? & ? & ?
          & _ & _ & _ & _ & _ & _ & _ & _ & _ & _ & _ & _ & _ & Hfs).
    rewrite Hfs. apply lookup_insert_ne. congruence.
  - rewrite Hfail; [reflexivity | discriminate].
  - rewrite Hfail; [reflexivity | discriminate].
Qed.

(** X13. [deploy_contract], however it ends, leaves the files and the
    default account as they are.  It returns a handle with the
    descriptor it was given, at the address of a receipt with non-zero
    status, which is the one contract it adds to those created; it lets
    an exception escape only when the factory call before the [try]
    raises; every other failure ends in [exit(1)] with the FATAL ERROR
    line printed last. *)
Theorem deploy_contract_outcomes name abi bytecode args s :
  let r := deploy_contract env name abi bytecode args s in
  fs (snd r) = fs s /\
  default_account (snd r) = default_account s /\
  match fst r with
  | Return h =>
      abi_of h = abi /\
      exists rc, status rc <> 0 /\ address h = contractAddress rc /\
                 created (log (snd r)) = contractAddress rc :: created (log s)
  | Raised e =>
      exists n', respond env (eth_contract name abi bytecode) (node s) = (Raise e, n')
  | SysExit c =>
      c = Some 1 /\
      (exists n', respond env (eth_contract name abi bytecode) (node s) = (Ok tt, n')) /\
      exists e rest,
        log (snd r) =
          Print "FATAL ERROR: Failed to deploy contract. Details: {e}" [ShExn e] :: rest
  end.
Proof.
  destruct s as [n f a l]. cbv zeta. cbn [node fs default_account log].
  unfold deploy_contract, on_revert, report_trace. red_script.
  repeat branch env.
  all: split; [reflexivity|]; split; [reflexivity|].
  all: repeat match goal with x : unit |- _ => destruct x end.
  all: try (split; [reflexivity|]; split; eauto; fail).
  all: try (eexists; reflexivity).
  split; [reflexivity|]. eexists. split; [apply Z.eqb_neq; eassumption|].
  split; [reflexivity|]. cbn [created flat_map app].
  match goal with H : (status _ =? 0) = false |- _ => rewrite H end. reflexivity.
Qed.

(** X14. A revert reason printed by [deploy_contract] neither begins nor
    ends with NUL, and it is the stripped decoding of what follows the
    selector in a payload that starts with the selector. *)
Theorem printed_revert_reason_is_trimmed name abi bytecode args n f a reason :
  In (revert_reason_template, [Sh (VStr reason)])
     (printed (log (snd (deploy_contract env name abi bytecode args (State n f a []))))) ->
  starts_with_nul reason = false /\ ends_with_nul reason = false /\
  exists payload raw,
    String.prefix error_selector payload = true /\
    bytes_fromhex env (str_drop 10 payload) = Ok raw /\
    reason = strip_nul (utf8_decode_ignore env raw).
Proof.
  unfold deploy_contract, on_revert, report_trace. red_script.
  repeat branch env.
  all: cbn [printed flat_map app In]; intros Hin;
       repeat destruct Hin as [Hin|Hin]; try contradiction; try discriminate Hin.
  all: injection Hin as <-.
  all: split; [apply rstrip_nul_keeps_start, lstrip_nul_clean|];
       split; [apply rstrip_nul_clean|]; eauto 10.
Qed.

Lemma load_events_allowed name evs :
  In name deployment_sequence ->
  forallb (load_event name) evs = true -> forallb file_access_allowed evs = true.
Proof.
  intros Hname. apply forallb_weaken.
  intros [f a| X c r | p m | z | e] H; try reflexivity.
  cbn in H. unfold file_access_allowed.
  apply orb_true_intro. left. apply existsb_exists. exists name. split; [exact Hname | exact H].
Qed.

Lemma deploy_events_allowed name evs :
  forallb (deploy_event name) evs = true -> forallb file_access_allowed evs = true.
Proof.
  apply forallb_weaken. intros [f a| X c r | p m | z | e] H; try reflexivity. discriminate H.
Qed.

(** X15. In every run, completed or not, the only files opened are build
    artifacts of the three contracts, for reading, and the registry file,
    for writing. *)
Theorem run_opens_only_its_files n files :
  forallb file_access_allowed (history (snd (run env n files))) = true.
Proof.
  script_steps env.
  all: unfold history; cbn [log]; rewrite forallb_rev.
  all: repeat first
         [ reflexivity
         | apply forallb_cons_true; [reflexivity|]
         | apply forallb_app_true;
           [first [ eapply load_events_allowed; [|eassumption]; cbn; auto
                  | eapply deploy_events_allowed; eassumption ]|] ].
Qed.

End Traces.

(** ** The properties at work on the example node *)


Lemma strip_nul_trims_both_ends_witness :
  strip_nul "Not owner" = "Not owner" /\
  starts_with_nul
    (strip_nul (String Ascii.zero ("Not owner" +:+ String Ascii.zero ""))) = false.
Proof.
  destruct (strip_nul_trims_both_ends "Not owner") as (_ & _ & Hid & _).
  destruct (strip_nul_trims_both_ends
              (String Ascii.zero ("Not owner" +:+ String Ascii.zero ""))) as (Hstart & _).
  split; [apply Hid; reflexivity | exact Hstart].
Defined.

Lemma artifact_paths_distinct_witness :
  "DataReview" = "DataReview" /\ abi_path_of "MyToken" <> bytecode_path_of "MyToken".
Proof.
  destruct (artifact_paths_distinct "DataReview" "DataReview") as (Habi & _).
  destruct (artifact_paths_distinct "MyToken" "MyToken") as (_ & _ & Hne & _).
  split; [apply Habi; reflexivity | exact Hne].
Defined.

Lemma selector_is_sliced_off_witness :
  "0x08c379a04e6f" = error_selector +:+ str_drop 10 "0x08c379a04e6f" /\
  String.length "0x08c379a04e6f" = (10 + String.length (str_drop 10 "0x08c379a04e6f"))%nat.
Proof. apply (selector_is_sliced_off "0x08c379a04e6f"). reflexivity. Defined.

Lemma load_contract_artifact_only_reads_witness :
  exists ta tb,
    build_dir !! abi_path_of "MyToken" = Some (FText ta) /\
    json_loads (demo_env happy) ta = Some (VStr "[token abi]") /\
    build_dir !! bytecode_path_of "MyToken" = Some (FText tb) /\
    "6080aa" = str_strip (demo_env happy) tb.
Proof.
  destruct (load_contract_artifact_only_reads (demo_env happy) "MyToken"
              (boot 0%nat build_dir)) as (_ & _ & _ & _ & Hret).
  apply (Hret (VStr "[token abi]") "6080aa"). vm_compute. reflexivity.
Defined.

Lemma load_contract_artifact_unreadable_raises_witness :
  exists e,
    fst (load_contract_artifact (demo_env happy) "MyToken"
           (boot 0%nat (<["build/MyToken.json" := FUndecodable]> build_dir))) = Raised e.
Proof.
  destruct (load_contract_artifact_unreadable_raises (demo_env happy) "MyToken"
              (boot 0%nat (<["build/MyToken.json" := FUndecodable]> build_dir)))
    as (Habi & _).
  apply (Habi FUndecodable); reflexivity.
Defined.

Lemma empty_account_list_is_uncaught_witness :
  run (demo_env Cases.no_accounts) 0%nat build_dir =
    (Raised (Exn IndexError "list index out of range"),
     State 0%nat build_dir VNone
       [ Traceback (Exn IndexError "list index out of range");
         Rpc eth_accounts (Ok []) ]).
Proof.
  apply (empty_account_list_is_uncaught (demo_env Cases.no_accounts) 0%nat build_dir 0%nat).
  reflexivity.
Defined.

Lemma build_artifacts_are_never_modified_witness :
  fs (snd (run (demo_env happy) 0%nat build_dir)) !! "build/MyToken.bin"
  = build_dir !! "build/MyToken.bin".
Proof.
  apply (build_artifacts_are_never_modified (demo_env happy) 0%nat build_dir
           "build/MyToken.bin").
  discriminate.
Defined.

Lemma printed_revert_reason_is_trimmed_witness :
  starts_with_nul "Not owner" = false /\ ends_with_nul "Not owner" = false /\
  exists payload raw,
    String.prefix error_selector payload = true /\
    bytes_fromhex Cases.padded_env (str_drop 10 payload) = Ok raw /\
    "Not owner" = strip_nul (utf8_decode_ignore Cases.padded_env raw).
Proof.
  apply (printed_revert_reason_is_trimmed Cases.padded_env "MyToken" (VStr "[token abi]")
           "6080aa" [VInt initial_supply] 0%nat build_dir (VStr "0xdeployer") "Not owner").
  vm_compute. auto 20.
Defined.
